(** * honeybee_schema.energy.designday: the design-day schema and its validation

    The source file declares six pydantic (v1) models.  A model is a class whose
    annotated attributes are its fields; calling the class on a mapping runs
    pydantic's [validate_model]: the fields are visited in declaration order,
    every field is checked by the validators of its annotation, the errors of
    all fields are gathered, and an instance is built only when there is none.

    The embedding follows that reading:
    - a raw input is a [value] (what [json.loads] gives) and a mapping is a
      [gmap string value];
    - a model class is a [Record] with one typed field per attribute;
    - the annotation of a field is a [validator], and the class body is the
      applicative composition of its [field]s ([<*>] gathers the errors);
    - the builtins of Python that the validators call on strings and numbers
      ([float(s)], [str(x)]), and the two classes the file imports from modules
      that are not in the sources ([Date], [NamedEnergyBaseModel]) are section
      variables.

    A number of a [value] is a double.  A JSON integer is a Python [int], of
    any size, and a number field reads it with [float(v)], which raises
    [OverflowError] for an [int] beyond the doubles; that exception is no
    validation error and leaves the call.  The part on integers embeds this
    for [DryBulbCondition]: an [entry] is an [int] or a [value], and the
    [outcome] of a call is what it returns or the exception that escapes. *)

From Stdlib Require Import PrimFloat Ascii SpecFloat FloatOps.
From stdpp Require Import gmap strings list fin_maps pretty.

Set Warnings "-register-all,-inexact-float".
Set Default Proof Using "Type".

Local Open Scope string_scope.

(** ** Raw input *)

(** A JSON document as Python holds it.  [VNum] is a JSON number, read as the
    double that [float()] gives for it: a Python [float], or an [int] that
    [float()] converts ([float_of_int]).  An [int] beyond the doubles is no
    [VNum]; it is an [EInt] of the entries below.  JSON arrays do not occur
    anywhere in this schema and are left out. *)
Inductive value :=
| VNone
| VBool (b : bool)
| VNum (f : float)
| VStr (s : string)
| VDict (d : gmap string value).

(** ** Errors *)

(** The error classes of pydantic that these models can raise, by their
    [type] code. *)
Inductive err_kind :=
| missing                        (* value_error.missing *)
| none_not_allowed               (* type_error.none.not_allowed *)
| str_type                       (* type_error.str *)
| str_regex (pattern : string)   (* value_error.str.regex, ctx: pattern *)
| float_type                     (* type_error.float *)
| not_ge (limit_value : float)   (* value_error.number.not_ge, ctx: limit_value *)
| not_le (limit_value : float)   (* value_error.number.not_le, ctx: limit_value *)
| bool_type                      (* type_error.bool *)
| enum_type                      (* type_error.enum *)
| dict_type.                     (* type_error.dict *)

(** One line of a [ValidationError]: where ([loc], outermost field first) and
    what. *)
Record error := Error { loc : list string; kind : err_kind }.


(** The outcome of validating: the validated value, or the gathered errors. *)
Inductive result (A : Type) :=
| Ok (a : A)
| Invalid (errs : list error).
Arguments Ok {A} a.
Arguments Invalid {A} errs.

Definition errors {A} (r : result A) : list error :=
  match r with Ok _ => [] | Invalid errs => errs end.

Definition raise {A} (k : err_kind) : result A := Invalid [Error [] k].

(** [f <*> x]: both sides are evaluated; the errors of the left come first. *)
Definition ap {A B} (f : result (A -> B)) (x : result A) : result B :=
  match f, x with
  | Ok g, Ok a => Ok (g a)
  | Ok _, Invalid e => Invalid e
  | Invalid e, Ok _ => Invalid e
  | Invalid e1, Invalid e2 => Invalid (e1 ++ e2)
  end.
Infix "<*>" := ap (at level 61, left associativity).

(** An error raised below a field is reported under that field's name. *)
Definition at_loc {A} (key : string) (r : result A) : result A :=
  match r with
  | Ok a => Ok a
  | Invalid errs => Invalid (map (fun e => Error (key :: loc e) (kind e)) errs)
  end.

Definition validator (A : Type) := value -> result A.

(** ** Integers and the exceptions that escape *)

(** [json.loads] gives a Python [int] for a JSON integer, whatever its size.
    An entry of a mapping is such an [int], or any other [value]. *)
Inductive entry :=
| EInt (n : Z)
| EValue (v : value).

(** Python's [float(n)] on an [int]: the nearest double, ties to even
    ([PyLong_AsDouble]); when that is beyond the largest double it raises
    [OverflowError] ([None]). *)
Definition float_of_int (n : Z) : option float :=
  match binary_normalize prec emax n 0 false with
  | S754_infinity _ => None
  | sf => Some (SF2Prim sf)
  end.

(** An exception that is none of [ValueError], [TypeError] and
    [AssertionError]: [ModelField._apply_validators] catches these three and
    turns them into errors, any other leaves [validate_model] and the call. *)
Inductive exception := OverflowError.

(** What a call of a model class comes to: the result of [validate_model],
    or the exception that escaped from it. *)
Inductive outcome (A : Type) :=
| Returns (r : result A)
| Escapes (e : exception).
Arguments Returns {A} r.
Arguments Escapes {A} e.

(** The fields are visited one after the other: an exception that escapes
    from a field ends the call, whatever errors were gathered before it, and
    the fields after it are not visited. *)
Definition ap_outcome {A B} (f : outcome (A -> B)) (x : outcome A) : outcome B :=
  match f with
  | Escapes e => Escapes e
  | Returns rf =>
      match x with
      | Returns rx => Returns (rf <*> rx)
      | Escapes e => Escapes e
      end
  end.
Infix "<**>" := ap_outcome (at level 61, left associativity).

(** ** Python's [re.match] on the patterns of this file *)

(** The patterns of the source are [^Name$]: a start anchor, literal letters
    and an end anchor.  [re.match] anchors at the start by itself, a letter
    matches itself, and [$] matches at the end of the string and also just
    before a line feed that ends the string.  A pattern that is used up has
    matched (a prefix of) the subject. *)
Fixpoint match_here (p s : string) : bool :=
  match p with
  | EmptyString => true
  | String c p' =>
      match p' with
      | EmptyString =>
          if Ascii.eqb c "$"%char
          then match s with
               | EmptyString => true
               | String d EmptyString => Ascii.eqb d "010"%char
               | _ => false
               end
          else match s with
               | String d _ => Ascii.eqb c d
               | EmptyString => false
               end
      | String _ _ =>
          match s with
          | String d s' => Ascii.eqb c d && match_here p' s'
          | EmptyString => false
          end
      end
  end.

Definition re_match (pattern s : string) : bool :=
  match pattern with
  | String "^"%char p => match_here p s
  | _ => match_here pattern s
  end.

(** ** Python's [str.lower], on the ASCII letters *)

Definition lower_ascii (c : ascii) : ascii :=
  let n := Ascii.nat_of_ascii c in
  if (65 <=? n)%nat && (n <=? 90)%nat then Ascii.ascii_of_nat (n + 32) else c.

Fixpoint lower (s : string) : string :=
  match s with
  | EmptyString => EmptyString
  | String c s' => String (lower_ascii c) (lower s')
  end.

(** ** Enumerations *)

Inductive HumidityTypes := wetbulb | dewpoint | humidity_ratio | enthalpy.

Definition HumidityTypes_value (e : HumidityTypes) : string :=
  match e with
  | wetbulb => "Wetbulb"
  | dewpoint => "Dewpoint"
  | humidity_ratio => "HumidityRatio"
  | enthalpy => "Enthalpy"
  end.

Definition HumidityTypes_members : list HumidityTypes :=
  [wetbulb; dewpoint; humidity_ratio; enthalpy].

Inductive DesignDayTypes :=
| summer_design_day | winter_design_day
| sunday | monday | tuesday | wednesday | thursday | friday
| holiday | custom_day1 | custom_day2.

Definition DesignDayTypes_value (e : DesignDayTypes) : string :=
  match e with
  | summer_design_day => "SummerDesignDay"
  | winter_design_day => "WinterDesignDay"
  | sunday => "Sunday"
  | monday => "Monday"
  | tuesday => "Tuesday"
  | wednesday => "Wednesday"
  | thursday => "Thursday"
  | friday => "Friday"
  | holiday => "Holiday"
  | custom_day1 => "CustomDay1"
  | custom_day2 => "CustomDay2"
  end.

Definition DesignDayTypes_members : list DesignDayTypes :=
  [summer_design_day; winter_design_day; sunday; monday; tuesday; wednesday;
   thursday; friday; holiday; custom_day1; custom_day2].

(** ** The model instances *)

Record DryBulbCondition := {
  DryBulbCondition_type : string;
  dry_bulb_max : float;
  dry_bulb_range : float }.

Record HumidityCondition := {
  HumidityCondition_type : string;
  humidity_type : HumidityTypes;
  humidity_value : float;
  barometric_pressure : float;
  rain : bool;
  snow_on_ground : bool }.

Record WindCondition := {
  WindCondition_type : string;
  wind_speed : float;
  wind_direction : float }.

Record ASHRAEClearSky (Date : Type) := {
  ASHRAEClearSky_type : string;
  ASHRAEClearSky_date : Date;
  clearness : float;
  ASHRAEClearSky_daylight_savings : bool }.
Arguments Build_ASHRAEClearSky {Date}.
Arguments ASHRAEClearSky_type {Date}.
Arguments ASHRAEClearSky_date {Date}.
Arguments clearness {Date}.
Arguments ASHRAEClearSky_daylight_savings {Date}.

Record ASHRAETau (Date : Type) := {
  ASHRAETau_type : string;
  ASHRAETau_date : Date;
  tau_b : float;
  tau_d : float;
  ASHRAETau_daylight_savings : bool }.
Arguments Build_ASHRAETau {Date}.
Arguments ASHRAETau_type {Date}.
Arguments ASHRAETau_date {Date}.
Arguments tau_b {Date}.
Arguments tau_d {Date}.
Arguments ASHRAETau_daylight_savings {Date}.

(** [sky_condition : Union[ASHRAEClearSky, ASHRAETau]] holds an instance of
    the one class or of the other. *)
Record DesignDay (Date : Type) := {
  name : string;
  DesignDay_type : string;
  day_type : DesignDayTypes;
  dry_bulb_condition : DryBulbCondition;
  humidity_condition : HumidityCondition;
  wind_condition : WindCondition;
  sky_condition : ASHRAEClearSky Date + ASHRAETau Date }.
Arguments Build_DesignDay {Date}.
Arguments name {Date}.
Arguments DesignDay_type {Date}.
Arguments day_type {Date}.
Arguments dry_bulb_condition {Date}.
Arguments humidity_condition {Date}.
Arguments wind_condition {Date}.
Arguments sky_condition {Date}.

(** ** The error taxonomy of the specification *)

(** Modelled from the spec: the five error classes of its section on error
    handling, and the class each pydantic error falls in by the wording
    there ("violates its declared numeric bound or is not its required
    literal/enumeration member", "a required field is absent", "not
    coercible to its declared primitive type").  pydantic has no error of its
    own for an unknown variant or for nesting: a nested error is an ordinary
    one with a longer [loc]. *)
Inductive error_class :=
| ConstraintViolation
| MissingField
| TypeMismatch
| UnknownVariant
| NestedValidationFailure.

(** Modelled from the spec: the class of each error, by the definitions of
    the taxonomy. *)
Definition classify (k : err_kind) : error_class :=
  match k with
  | missing => MissingField
  | str_regex _ | not_ge _ | not_le _ | enum_type => ConstraintViolation
  | none_not_allowed | str_type | float_type | bool_type | dict_type =>
      TypeMismatch
  end.

(** ** A stand-in for the two imported classes *)

(** Modelled from the spec: [Date], "calendar dates expressed via an external
    Date representation (month/day)".  The class itself is not among the
    sources; this stand-in holds the two numbers and asks for both. *)
Record MonthDay := { month : float; day : float }.

(** Modelled from the spec: one of the two numbers of a date. *)
Definition number_entry (key : string) (data : gmap string value)
  : result float :=
  match data !! key with
  | Some (VNum f) => Ok f
  | Some _ => Invalid [Error [key] float_type]
  | None => Invalid [Error [key] missing]
  end.

(** Modelled from the spec: [validate] and [serialize] of the stand-in. *)
Definition validate_MonthDay (data : gmap string value) : result MonthDay :=
  Ok Build_MonthDay <*> number_entry "month" data <*> number_entry "day" data.

Definition serialize_MonthDay (d : MonthDay) (include_defaults : bool)
  : gmap string value :=
  <["month" := VNum (month d)]> (<["day" := VNum (day d)]> ∅).

(** Modelled from the spec: the [name] of a "named entity", a string. *)
Definition plain_name : validator string := fun v =>
  match v with
  | VStr s => Ok s
  | _ => raise str_type
  end.

(** A line feed, the character ["\n"] of Python. *)
Definition LF : string := String "010"%char EmptyString.

(** ** Sample inputs *)

(** The payload of the specification: [tau_b = 0.5], [tau_d = 1.0],
    [date = {month: 7, day: 21}], under the discriminator [t]. *)
Definition july_21 : gmap string value :=
  <["month" := VNum 7%float]> (<["day" := VNum 21%float]> ∅).

Definition tau_payload (t : string) : gmap string value :=
  <["type" := VStr t]>
    (<["date" := VDict july_21]>
       (<["tau_b" := VNum 0.5%float]> (<["tau_d" := VNum 1%float]> ∅))).

(** Two dry-bulb mappings: one within the bounds, one with the maximum of
    85 of the specification. *)
Definition mild_dry_bulb : gmap string value :=
  <["dry_bulb_max" := VNum 32.5%float]> (<["dry_bulb_range" := VNum 10%float]> ∅).

Definition hot_dry_bulb : gmap string value :=
  <["dry_bulb_max" := VNum 85%float]> (<["dry_bulb_range" := VNum 10%float]> ∅).

(** A humidity mapping and a wind mapping that leave every optional field
    out. *)
Definition humid : gmap string value :=
  <["humidity_type" := VStr "Wetbulb"]> (<["humidity_value" := VNum 23%float]> ∅).

Definition breeze : gmap string value := <["wind_speed" := VNum 5%float]> ∅.

(** A mapping without [type] that holds the fields of both sky classes. *)
Definition untagged_sky : gmap string value :=
  <["date" := VDict july_21]> (<["clearness" := VNum 1%float]> ∅).

(** A wind mapping with a direction, a humidity mapping with a pressure, and
    mappings with a null, a lower-case enumeration value and a NaN. *)
Definition gusty : gmap string value :=
  <["wind_speed" := VNum 5%float]> (<["wind_direction" := VNum 270%float]> ∅).

Definition humid_at_altitude : gmap string value :=
  <["humidity_type" := VStr "Dewpoint"]>
    (<["humidity_value" := VNum (-5)%float]>
       (<["barometric_pressure" := VNum 95000%float]> ∅)).




(** A summer design day, as a mapping and as the instance it validates to. *)
Definition summer_day_data : gmap string value :=
  <["name" := VStr "Boston Summer"]>
  (<["day_type" := VStr "SummerDesignDay"]>
  (<["dry_bulb_condition" := VDict
       (<["dry_bulb_max" := VNum 32.5%float]>
       (<["dry_bulb_range" := VNum 10%float]> ∅))]>
  (<["humidity_condition" := VDict
       (<["humidity_type" := VStr "Wetbulb"]>
       (<["humidity_value" := VNum 23%float]> ∅))]>
  (<["wind_condition" := VDict (<["wind_speed" := VNum 5%float]> ∅)]>
  (<["sky_condition" := VDict (tau_payload "ASHRAETau")]> ∅))))).

Definition summer_day : DesignDay MonthDay :=
  {| name := "Boston Summer";
     DesignDay_type := "DesignDay";
     day_type := summer_design_day;
     dry_bulb_condition :=
       {| DryBulbCondition_type := "DryBulbCondition";
          dry_bulb_max := 32.5%float; dry_bulb_range := 10%float |};
     humidity_condition :=
       {| HumidityCondition_type := "HumidityCondition";
          humidity_type := wetbulb; humidity_value := 23%float;
          barometric_pressure := 101325%float; rain := false;
          snow_on_ground := false |};
     wind_condition :=
       {| WindCondition_type := "WindCondition";
          wind_speed := 5%float; wind_direction := 0%float |};
     sky_condition :=
       inr {| ASHRAETau_type := "ASHRAETau";
              ASHRAETau_date := {| month := 7%float; day := 21%float |};
              tau_b := 0.5%float; tau_d := 1%float;
              ASHRAETau_daylight_savings := false |} |}.

(** The dry-bulb mapping [{"dry_bulb_max": 0, "dry_bulb_range": 10**400}] as
    [json.loads] gives it: both numbers are Python [int]s, and the second is
    beyond the doubles. *)
Definition wide_dry_bulb : gmap string entry :=
  <["dry_bulb_max" := EInt 0]> (<["dry_bulb_range" := EInt (10 ^ 400)]> ∅).

(** Two dry-bulb mappings of entries: [{"dry_bulb_max": 32.5,
    "dry_bulb_range": 10}] and [{"dry_bulb_max": 85, "dry_bulb_range": 10}]. *)
Definition mild_entries : gmap string entry :=
  <["dry_bulb_max" := EValue (VNum 32.5%float)]>
    (<["dry_bulb_range" := EInt 10]> ∅).

Definition hot_entries : gmap string entry :=
  <["dry_bulb_max" := EInt 85]> (<["dry_bulb_range" := EInt 10]> ∅).



Section Schema.

(** ** What the file takes from elsewhere *)

(** Python's [float(s)] on a string ([None]: it raises [ValueError]) and
    [str(x)] on a number. *)
Variable float_of_str : string -> option float.
Variable str_of_num : float -> string.

(** [from ..datetime import Date]: a model class of this repository whose
    module is not among the sources.  Its instances, its validation of a
    mapping and its serialisation are taken as given. *)
Variable Date : Type.
Variable validate_Date : gmap string value -> result Date.
Variable serialize_Date : Date -> bool -> gmap string value.

(** [from ._base import NamedEnergyBaseModel]: the base class of [DesignDay],
    not among the sources either.  It contributes the field [name]; the
    annotation it gives that field is taken as given. *)
Variable name_validator : validator string.

(** ** The validators pydantic attaches to the annotations used here *)

Definition and_then {A B} (r : result A) (k : A -> result B) : result B :=
  match r with
  | Ok a => k a
  | Invalid errs => Invalid errs
  end.

(** [validators.str_validator]: a [str] is kept, a number or a boolean is replaced by
    its [str()], anything else is refused. *)
Definition str_validator : validator string := fun v =>
  match v with
  | VStr s => Ok s
  | VNum f => Ok (str_of_num f)
  | VBool b => Ok (if b then "True" else "False")
  | VNone | VDict _ => raise str_type
  end.

(** [constr(regex=...)]: [str_validator], then [ConstrainedStr.validate],
    which is [regex.match(value)]. *)
Definition constr (regex : string) : validator string := fun v =>
  and_then (str_validator v) (fun s =>
    if re_match regex s then Ok s else raise (str_regex regex)).

(** [validators.float_validator]: a [float] is kept, otherwise [float(v)] is tried
    ([bool] is a subclass of [int]), and a [TypeError] or [ValueError] of
    that call is the error [float_type].  The [int] that [float(v)] cannot
    convert is the case of [confloat_entry] below. *)
Definition float_validator : validator float := fun v =>
  match v with
  | VNum f => Ok f
  | VBool b => Ok (if b then 1%float else 0%float)
  | VStr s =>
      match float_of_str s with
      | Some f => Ok f
      | None => raise float_type
      end
  | VNone | VDict _ => raise float_type
  end.

(** [validators.number_size_validator]: [not v >= ge] is checked first, then
    [not v <= le]; a bound that is not declared is not checked. *)
Definition number_size_validator (ge le : option float) (x : float)
  : result float :=
  let check_le :=
    match le with
    | Some l => if PrimFloat.leb x l then Ok x else raise (not_le l)
    | None => Ok x
    end in
  match ge with
  | Some g => if PrimFloat.leb g x then check_le else raise (not_ge g)
  | None => check_le
  end.

(** [float] with [Field(ge=..., le=...)]. *)
Definition confloat (ge le : option float) : validator float := fun v =>
  and_then (float_validator v) (number_size_validator ge le).

Definition BOOL_FALSE : list string := ["0"; "off"; "f"; "false"; "n"; "no"].
Definition BOOL_TRUE : list string := ["1"; "on"; "t"; "true"; "y"; "yes"].

(** [validators.bool_validator]: [True] and [False] are kept; a string is lowered and
    looked up in the two sets; a number is in a set when it equals 1 or 0. *)
Definition bool_validator : validator bool := fun v =>
  match v with
  | VBool b => Ok b
  | VStr s =>
      if bool_decide (lower s ∈ BOOL_TRUE) then Ok true
      else if bool_decide (lower s ∈ BOOL_FALSE) then Ok false
      else raise bool_type
  | VNum f =>
      if PrimFloat.eqb f 1%float then Ok true
      else if PrimFloat.eqb f 0%float then Ok false
      else raise bool_type
  | VNone | VDict _ => raise bool_type
  end.

(** [validators.enum_validator]: the call [E(v)] looks the member up by its value. *)
Definition enum_validator {E} (members : list E) (value_of : E -> string)
  : validator E := fun v =>
  match v with
  | VStr s =>
      match find (fun e => String.eqb (value_of e) s) members with
      | Some e => Ok e
      | None => raise enum_type
      end
  | _ => raise enum_type
  end.

(** A field annotated with a model class, [BaseModel.validate(value)]: a [dict]
    is validated as it is; anything else goes through [dict(value)], which
    gives [{}] for the empty string and raises for the other scalars. *)
Definition model_validator {A} (validate : gmap string value -> result A)
  : validator A := fun v =>
  match v with
  | VDict d => validate d
  | VStr EmptyString => validate ∅
  | _ => raise dict_type
  end.

(** [Union[A, B]] ([ModelField._validate_singleton] over the sub-fields): the
    members are tried in the order written; the first that validates gives
    the value, and when none does the errors of all are reported. *)
Definition union_validator {A B} (va : validator A) (vb : validator B)
  : validator (A + B) := fun v =>
  match va v with
  | Ok a => Ok (inl a)
  | Invalid ea =>
      match vb v with
      | Ok b => Ok (inr b)
      | Invalid eb => Invalid (ea ++ eb)
      end
  end.

(** One field of [main.validate_model] and [ModelField.validate]: a key that is absent gives the default
    (unvalidated) or [missing] when the field is required ([...]); [None]
    is refused for a field that is not [Optional]; any other value goes
    through the validators of the annotation. *)
Definition field {A} (key : string) (annotation : validator A)
    (default : option A) (data : gmap string value) : result A :=
  match data !! key with
  | None =>
      match default with
      | Some a => Ok a
      | None => Invalid [Error [key] missing]
      end
  | Some VNone => Invalid [Error [key] none_not_allowed]
  | Some v => at_loc key (annotation v)
  end.

Definition required {A} : option A := None.

(** ** The models of the source, field by field *)

(* class DryBulbCondition(BaseModel) *)
Definition validate_DryBulbCondition (data : gmap string value)
  : result DryBulbCondition :=
  Ok Build_DryBulbCondition
  <*> field "type" (constr "^DryBulbCondition$") (Some "DryBulbCondition") data
  <*> field "dry_bulb_max" (confloat (Some (-90)%float) (Some 70%float)) required data
  <*> field "dry_bulb_range" (confloat (Some 0%float) None) required data.

(* class HumidityCondition(BaseModel) *)
Definition validate_HumidityCondition (data : gmap string value)
  : result HumidityCondition :=
  Ok Build_HumidityCondition
  <*> field "type" (constr "^HumidityCondition$") (Some "HumidityCondition") data
  <*> field "humidity_type"
        (enum_validator HumidityTypes_members HumidityTypes_value) required data
  <*> field "humidity_value" (confloat None None) required data
  <*> field "barometric_pressure"
        (confloat (Some 31000%float) (Some 120000%float)) (Some 101325%float) data
  <*> field "rain" bool_validator (Some false) data
  <*> field "snow_on_ground" bool_validator (Some false) data.

(* class WindCondition(BaseModel) *)
Definition validate_WindCondition (data : gmap string value)
  : result WindCondition :=
  Ok Build_WindCondition
  <*> field "type" (constr "^WindCondition$") (Some "WindCondition") data
  <*> field "wind_speed" (confloat (Some 0%float) (Some 40%float)) required data
  <*> field "wind_direction"
        (confloat (Some 0%float) (Some 360%float)) (Some 0%float) data.

(* class ASHRAEClearSky(BaseModel) *)
Definition validate_ASHRAEClearSky (data : gmap string value)
  : result (ASHRAEClearSky Date) :=
  Ok Build_ASHRAEClearSky
  <*> field "type" (constr "^ASHRAEClearSky$") (Some "ASHRAEClearSky") data
  <*> field "date" (model_validator validate_Date) required data
  <*> field "clearness" (confloat (Some 0%float) (Some 1.2%float)) required data
  <*> field "daylight_savings" bool_validator (Some false) data.

(* class ASHRAETau(BaseModel) *)
Definition validate_ASHRAETau (data : gmap string value)
  : result (ASHRAETau Date) :=
  Ok Build_ASHRAETau
  <*> field "type" (constr "^ASHRAETau$") (Some "ASHRAETau") data
  <*> field "date" (model_validator validate_Date) required data
  <*> field "tau_b" (confloat (Some 0%float) (Some 1.2%float)) required data
  <*> field "tau_d" (confloat (Some 0%float) (Some 3%float)) required data
  <*> field "daylight_savings" bool_validator (Some false) data.

(* sky_condition: Union[ASHRAEClearSky, ASHRAETau] *)
Definition validate_sky_condition
  : validator (ASHRAEClearSky Date + ASHRAETau Date) :=
  union_validator (model_validator validate_ASHRAEClearSky)
                  (model_validator validate_ASHRAETau).

(* class DesignDay(NamedEnergyBaseModel): the inherited [name] comes first *)
Definition validate_DesignDay (data : gmap string value)
  : result (DesignDay Date) :=
  Ok Build_DesignDay
  <*> field "name" name_validator required data
  <*> field "type" (constr "^DesignDay$") (Some "DesignDay") data
  <*> field "day_type"
        (enum_validator DesignDayTypes_members DesignDayTypes_value) required data
  <*> field "dry_bulb_condition"
        (model_validator validate_DryBulbCondition) required data
  <*> field "humidity_condition"
        (model_validator validate_HumidityCondition) required data
  <*> field "wind_condition"
        (model_validator validate_WindCondition) required data
  <*> field "sky_condition" validate_sky_condition required data.

(** ** [DryBulbCondition] on entries that may be integers *)

(** [constr(regex=...)] on an entry: [str_validator] replaces an [int] by its
    [str()], the decimal digits, and nothing escapes.  (A Python that limits
    the digits of [str(int)] raises [ValueError] beyond its limit; that is an
    error at the field as well.) *)
Definition constr_entry (regex : string) (e : entry) : outcome string :=
  match e with
  | EInt n => Returns (constr regex (VStr (pretty n)))
  | EValue v => Returns (constr regex v)
  end.

(** [validators.float_validator] on an entry: for an [int] it calls
    [float(v)] and catches [TypeError] and [ValueError] only, so the
    [OverflowError] of an [int] beyond the doubles escapes. *)
Definition float_validator_entry (e : entry) : outcome float :=
  match e with
  | EInt n =>
      match float_of_int n with
      | Some f => Returns (Ok f)
      | None => Escapes OverflowError
      end
  | EValue v => Returns (float_validator v)
  end.

(** [float] with [Field(ge=..., le=...)] on an entry: the double that
    [float_validator] returns goes on to the bounds. *)
Definition confloat_entry (ge le : option float) (e : entry) : outcome float :=
  match float_validator_entry e with
  | Returns r => Returns (and_then r (number_size_validator ge le))
  | Escapes x => Escapes x
  end.

(** One field, as [field], on a mapping of entries. *)
Definition field_entry {A} (key : string) (annotation : entry -> outcome A)
    (default : option A) (data : gmap string entry) : outcome A :=
  match data !! key with
  | None =>
      Returns match default with
              | Some a => Ok a
              | None => Invalid [Error [key] missing]
              end
  | Some (EValue VNone) => Returns (Invalid [Error [key] none_not_allowed])
  | Some e =>
      match annotation e with
      | Returns r => Returns (at_loc key r)
      | Escapes x => Escapes x
      end
  end.

(* class DryBulbCondition(BaseModel), called on a mapping of entries *)
Definition validate_DryBulbCondition_entries (data : gmap string entry)
  : outcome DryBulbCondition :=
  Returns (Ok Build_DryBulbCondition)
  <**> field_entry "type" (constr_entry "^DryBulbCondition$")
         (Some "DryBulbCondition") data
  <**> field_entry "dry_bulb_max"
         (confloat_entry (Some (-90)%float) (Some 70%float)) required data
  <**> field_entry "dry_bulb_range"
         (confloat_entry (Some 0%float) None) required data.

(** ** Serialisation *)

(** Modelled from the spec: [serialize(model, includeDefaults)] of the
    schema facade, which is pydantic's [dict()] and is called nowhere in the
    sources.  It "produces a mapping with every declared field; when
    includeDefaults is false, fields whose value equals their declared
    default are omitted", the comparison being by value.  A field without a
    default is always written.  [put] writes one field; the defaults are the
    ones the source declares. *)
Definition put {A} (include_defaults : bool) (key : string)
    (to_value : A -> value) (is_default : A -> bool) (a : A)
    (out : gmap string value) : gmap string value :=
  if negb include_defaults && is_default a then out
  else <[key := to_value a]> out.

(** Modelled from the spec: a field without a default never equals it. *)
Definition no_default {A} : A -> bool := fun _ => false.

(** Modelled from the spec: a member of an enumeration is written as its
    value. *)
Definition enum_value {E} (value_of : E -> string) (e : E) : value :=
  VStr (value_of e).

(** Modelled from the spec: [serialize] on a [DryBulbCondition]. *)
Definition serialize_DryBulbCondition (x : DryBulbCondition) (inc : bool)
  : gmap string value :=
  put inc "type" VStr (String.eqb "DryBulbCondition") (DryBulbCondition_type x)
  (put inc "dry_bulb_max" VNum no_default (dry_bulb_max x)
  (put inc "dry_bulb_range" VNum no_default (dry_bulb_range x) ∅)).

(** Modelled from the spec: [serialize] on a [HumidityCondition]. *)
Definition serialize_HumidityCondition (x : HumidityCondition) (inc : bool)
  : gmap string value :=
  put inc "type" VStr (String.eqb "HumidityCondition") (HumidityCondition_type x)
  (put inc "humidity_type" (enum_value HumidityTypes_value) no_default
     (humidity_type x)
  (put inc "humidity_value" VNum no_default (humidity_value x)
  (put inc "barometric_pressure" VNum (PrimFloat.eqb 101325%float)
     (barometric_pressure x)
  (put inc "rain" VBool (Bool.eqb false) (rain x)
  (put inc "snow_on_ground" VBool (Bool.eqb false) (snow_on_ground x) ∅))))).

(** Modelled from the spec: [serialize] on a [WindCondition]. *)
Definition serialize_WindCondition (x : WindCondition) (inc : bool)
  : gmap string value :=
  put inc "type" VStr (String.eqb "WindCondition") (WindCondition_type x)
  (put inc "wind_speed" VNum no_default (wind_speed x)
  (put inc "wind_direction" VNum (PrimFloat.eqb 0%float) (wind_direction x) ∅)).

(** Modelled from the spec: [serialize] on a [ASHRAEClearSky]. *)
Definition serialize_ASHRAEClearSky (x : ASHRAEClearSky Date) (inc : bool)
  : gmap string value :=
  put inc "type" VStr (String.eqb "ASHRAEClearSky") (ASHRAEClearSky_type x)
  (put inc "date" (fun d => VDict (serialize_Date d inc)) no_default
     (ASHRAEClearSky_date x)
  (put inc "clearness" VNum no_default (clearness x)
  (put inc "daylight_savings" VBool (Bool.eqb false)
     (ASHRAEClearSky_daylight_savings x) ∅))).

(** Modelled from the spec: [serialize] on a [ASHRAETau]. *)
Definition serialize_ASHRAETau (x : ASHRAETau Date) (inc : bool)
  : gmap string value :=
  put inc "type" VStr (String.eqb "ASHRAETau") (ASHRAETau_type x)
  (put inc "date" (fun d => VDict (serialize_Date d inc)) no_default
     (ASHRAETau_date x)
  (put inc "tau_b" VNum no_default (tau_b x)
  (put inc "tau_d" VNum no_default (tau_d x)
  (put inc "daylight_savings" VBool (Bool.eqb false)
     (ASHRAETau_daylight_savings x) ∅)))).

(** Modelled from the spec: [serialize] on the member of the union that is
    there. *)
Definition serialize_sky_condition
    (x : ASHRAEClearSky Date + ASHRAETau Date) (inc : bool) : value :=
  match x with
  | inl c => VDict (serialize_ASHRAEClearSky c inc)
  | inr t => VDict (serialize_ASHRAETau t inc)
  end.

(** Modelled from the spec: [serialize] on a [DesignDay]. *)
Definition serialize_DesignDay (x : DesignDay Date) (inc : bool)
  : gmap string value :=
  put inc "name" VStr no_default (name x)
  (put inc "type" VStr (String.eqb "DesignDay") (DesignDay_type x)
  (put inc "day_type" (enum_value DesignDayTypes_value) no_default (day_type x)
  (put inc "dry_bulb_condition"
     (fun c => VDict (serialize_DryBulbCondition c inc)) no_default
     (dry_bulb_condition x)
  (put inc "humidity_condition"
     (fun c => VDict (serialize_HumidityCondition c inc)) no_default
     (humidity_condition x)
  (put inc "wind_condition"
     (fun c => VDict (serialize_WindCondition c inc)) no_default
     (wind_condition x)
  (put inc "sky_condition" (fun c => serialize_sky_condition c inc) no_default
     (sky_condition x) ∅)))))).

(** ** Predicates used in the statements *)

(** What is asked of the two imported classes for a round trip: [Date]
    reads back what it wrote, and the annotation of [name] accepts a name it
    has returned. *)
Definition Date_round_trip : Prop :=
  forall d x, validate_Date d = Ok x -> validate_Date (serialize_Date x true) = Ok x.

Definition name_accepted_again : Prop :=
  forall v s, name_validator v = Ok s -> name_validator (VStr s) = Ok s.

Definition is_invalid {A} (r : result A) : Prop :=
  match r with Ok _ => False | Invalid _ => True end.

(** The bounds of the two dry-bulb fields, as the source declares them. *)
Definition dry_bulb_max_in_bounds (x : float) : bool :=
  PrimFloat.leb (-90)%float x && PrimFloat.leb x 70%float.

Definition dry_bulb_range_in_bounds (r : float) : bool :=
  PrimFloat.leb 0%float r.

(** The declared fields of the leaf models. *)
Definition DryBulbCondition_fields : list string :=
  ["type"; "dry_bulb_max"; "dry_bulb_range"].

Definition HumidityCondition_fields : list string :=
  ["type"; "humidity_type"; "humidity_value"; "barometric_pressure"; "rain";
   "snow_on_ground"].

Definition WindCondition_fields : list string :=
  ["type"; "wind_speed"; "wind_direction"].

(** ** Predicates for the further properties *)

(** [x] is within the bounds a field declares ([ge], [le]; [None]: not
    declared). *)
Definition within (ge le : option float) (x : float) : bool :=
  match ge with Some g => PrimFloat.leb g x | None => true end
  && match le with Some l => PrimFloat.leb x l | None => true end.

(** The declared bounds, instance by instance. *)
Definition DryBulbCondition_within (x : DryBulbCondition) : bool :=
  within (Some (-90)%float) (Some 70%float) (dry_bulb_max x)
  && within (Some 0%float) None (dry_bulb_range x).

Definition HumidityCondition_within (x : HumidityCondition) : bool :=
  within (Some 31000%float) (Some 120000%float) (barometric_pressure x).

Definition WindCondition_within (x : WindCondition) : bool :=
  within (Some 0%float) (Some 40%float) (wind_speed x)
  && within (Some 0%float) (Some 360%float) (wind_direction x).

Definition ASHRAEClearSky_within (x : ASHRAEClearSky Date) : bool :=
  within (Some 0%float) (Some 1.2%float) (clearness x).

Definition ASHRAETau_within (x : ASHRAETau Date) : bool :=
  within (Some 0%float) (Some 1.2%float) (tau_b x)
  && within (Some 0%float) (Some 3%float) (tau_d x).

Definition sky_condition_within (x : ASHRAEClearSky Date + ASHRAETau Date)
  : bool :=
  match x with
  | inl c => ASHRAEClearSky_within c
  | inr t => ASHRAETau_within t
  end.







Definition ASHRAEClearSky_fields : list string :=
  ["type"; "date"; "clearness"; "daylight_savings"].

Definition ASHRAETau_fields : list string :=
  ["type"; "date"; "tau_b"; "tau_d"; "daylight_savings"].


(** A list of errors that holds nothing, or one error with an empty path:
    what the annotation of a plain field reports. *)
Definition one_error_at_most (errs : list error) : Prop :=
  errs = [] \/ exists k, errs = [Error [] k].





(** * Properties *)

(** ** The applicative and the field combinator *)

Lemma ap_Ok_inv {A B} (f : result (A -> B)) (x : result A) (b : B) :
  f <*> x = Ok b -> exists g a, f = Ok g /\ x = Ok a /\ b = g a.
Proof.
  destruct f as [g|e1], x as [a|e2]; simpl; intros H; try discriminate.
  injection H as <-. by exists g, a.
Qed.

Lemma errors_ap {A B} (f : result (A -> B)) (x : result A) :
  errors (f <*> x) = (errors f ++ errors x)%list.
Proof.
  destruct f as [g|e1], x as [a|e2]; simpl; try reflexivity.
  by rewrite app_nil_r.
Qed.

(** Membership in a list of errors put together by [++] and [::]. *)
Ltac in_errors :=
  rewrite ?errors_ap; simpl;
  rewrite ?elem_of_app, ?elem_of_cons; auto 20.

Lemma at_loc_Ok_inv {A} key (r : result A) a : at_loc key r = Ok a -> r = Ok a.
Proof. destruct r; simpl; congruence. Qed.

Lemma and_then_Ok_inv {A B} (r : result A) (k : A -> result B) b :
  and_then r k = Ok b -> exists a, r = Ok a /\ k a = Ok b.
Proof. destruct r as [a|e]; simpl; intros H; [by exists a | discriminate]. Qed.

(** What [field] returns is the default of an absent key, or what the
    annotation makes of the value that is there. *)
Lemma field_Ok_inv {A} key (ann : validator A) dflt data a :
  field key ann dflt data = Ok a ->
  (data !! key = None /\ dflt = Some a) \/
  (exists v, data !! key = Some v /\ v <> VNone /\ ann v = Ok a).
Proof.
  unfold field. destruct (data !! key) as [v|] eqn:E.
  - intros H. right. exists v. destruct v; try discriminate;
      (split; [reflexivity | split; [discriminate | by apply at_loc_Ok_inv in H]]).
  - destruct dflt as [a0|]; intros H; [|discriminate].
    injection H as <-. by left.
Qed.

Lemma field_present {A} key (ann : validator A) dflt data v a :
  data !! key = Some v -> ann v = Ok a -> v <> VNone ->
  field key ann dflt data = Ok a.
Proof.
  intros E Hv Hn. unfold field. rewrite E.
  destruct v; try (by rewrite Hv); congruence.
Qed.

Lemma field_absent {A} key (ann : validator A) a data :
  data !! key = None -> field key ann (Some a) data = Ok a.
Proof. intros E. unfold field. by rewrite E. Qed.

(** A key that no field reads does not change what a field returns. *)
Lemma field_insert_ne {A} key (ann : validator A) dflt data k v :
  k <> key -> field key ann dflt (<[k := v]> data) = field key ann dflt data.
Proof. intros Hne. unfold field. by rewrite lookup_insert_ne. Qed.

(** ** The patterns *)

Lemma match_here_literal lit s :
  match_here (lit +:+ "$") s = true <-> s = lit \/ s = lit +:+ LF.
Proof.
  revert s. induction lit as [|c lit IH]; intros s.
  - simpl. destruct s as [|d [|d' s']]; simpl.
    + split; [by left | done].
    + unfold LF. split.
      * intros H. apply Ascii.eqb_eq in H as ->. by right.
      * intros [H|H]; [discriminate | injection H as ->; apply Ascii.eqb_refl].
    + unfold LF. split; [done | intros [H|H]; discriminate].
  - assert (Hp : exists a p, lit +:+ "$" = String a p).
    { destruct lit; simpl; eauto. }
    destruct Hp as (a & p & Hp).
    change (String c lit +:+ "$") with (String c (lit +:+ "$")).
    simpl. rewrite Hp, <- Hp.
    destruct s as [|d s'].
    + split; [done | intros [H|H]; discriminate].
    + rewrite andb_true_iff, IH, Ascii.eqb_eq.
      change (String c lit +:+ LF) with (String c (lit +:+ LF)).
      split.
      * intros [-> [->| ->]]; auto.
      * intros [H|H]; injection H as -> ->; auto.
Qed.

Lemma re_match_anchored lit s :
  re_match ("^" +:+ lit +:+ "$") s = true <-> s = lit \/ s = lit +:+ LF.
Proof. apply match_here_literal. Qed.

(** ** Each validator accepts again what it returned *)

Lemma constr_VStr regex s :
  constr regex (VStr s)
  = if re_match regex s then Ok s else raise (str_regex regex).
Proof. reflexivity. Qed.

Lemma constr_Ok_match regex v s : constr regex v = Ok s -> re_match regex s = true.
Proof.
  unfold constr. intros H. apply and_then_Ok_inv in H as (s0 & _ & H).
  destruct (re_match regex s0) eqn:E; [|discriminate].
  injection H as <-. exact E.
Qed.

Lemma constr_again regex s : re_match regex s = true -> constr regex (VStr s) = Ok s.
Proof. intros H. by rewrite constr_VStr, H. Qed.

Lemma number_size_validator_Ok ge le x y :
  number_size_validator ge le x = Ok y -> y = x.
Proof.
  unfold number_size_validator.
  destruct ge as [g|], le as [l|];
    repeat match goal with |- context [if ?b then _ else _] => destruct b end;
    intros H; try discriminate; by injection H.
Qed.

Lemma confloat_VNum ge le x :
  confloat ge le (VNum x) = number_size_validator ge le x.
Proof. reflexivity. Qed.

Lemma confloat_again ge le v x :
  confloat ge le v = Ok x -> confloat ge le (VNum x) = Ok x.
Proof.
  unfold confloat at 1. intros H. apply and_then_Ok_inv in H as (y & _ & H).
  rewrite confloat_VNum.
  by pose proof (number_size_validator_Ok _ _ _ _ H) as ->.
Qed.

Lemma find_value_of {E} (members : list E) (value_of : E -> string) s e :
  find (fun e' => String.eqb (value_of e') s) members = Some e ->
  value_of e = s.
Proof. intros H. apply find_some in H as [_ H]. by apply String.eqb_eq. Qed.

Lemma enum_validator_Ok_inv {E} (members : list E) value_of v e :
  enum_validator members value_of v = Ok e ->
  v = VStr (value_of e) /\
  find (fun e' => String.eqb (value_of e') (value_of e)) members = Some e.
Proof.
  unfold enum_validator. destruct v as [| | |s|]; try discriminate.
  destruct (find _ members) as [e'|] eqn:F; [|discriminate].
  intros H. injection H as ->.
  by rewrite (find_value_of _ _ _ _ F).
Qed.

Lemma enum_validator_again {E} (members : list E) value_of v e :
  enum_validator members value_of v = Ok e ->
  enum_validator members value_of (VStr (value_of e)) = Ok e.
Proof. intros H. apply enum_validator_Ok_inv in H as [-> H]. simpl. by rewrite H. Qed.

(** A field accepts again, under the same key, the value it returned. *)
Lemma field_again {A} key (ann : validator A) dflt data a (to_value : A -> value)
    data' :
  field key ann dflt data = Ok a ->
  (forall v, ann v = Ok a -> ann (to_value a) = Ok a) ->
  (dflt = Some a -> ann (to_value a) = Ok a) ->
  to_value a <> VNone ->
  data' !! key = Some (to_value a) ->
  field key ann dflt data' = Ok a.
Proof.
  intros H Hst Hd Hn E. apply field_Ok_inv in H as [[_ H] | (v & _ & _ & H)];
    eapply field_present; eauto.
Qed.

Ltac split_ap H :=
  repeat match type of H with
    | _ <*> _ = Ok _ =>
        let g := fresh "g" in
        let a := fresh "a" in
        let F := fresh "Fld" in
        apply ap_Ok_inv in H as (g & a & H & F & ->)
    end;
  injection H as <-.

Ltac lookup_put :=
  unfold put; simpl;
  repeat first [ rewrite lookup_insert_eq | rewrite lookup_insert_ne by done ];
  try reflexivity; try apply lookup_empty.

Lemma ap_Ok {A B} (f : result (A -> B)) (x : result A) g a :
  f = Ok g -> x = Ok a -> f <*> x = Ok (g a).
Proof. by intros -> ->. Qed.

Lemma constr_stable regex v s :
  constr regex v = Ok s -> constr regex (VStr s) = Ok s.
Proof. intros H. apply constr_again. by apply constr_Ok_match in H. Qed.

Lemma bool_validator_again v b :
  bool_validator v = Ok b -> bool_validator (VBool b) = Ok b.
Proof. reflexivity. Qed.

Lemma model_validator_Ok_inv {A} (validate : gmap string value -> result A) v a :
  model_validator validate v = Ok a -> exists d, validate d = Ok a.
Proof.
  destruct v as [| | |s|d]; simpl; try discriminate; [|by exists d].
  destruct s; [by exists ∅ | discriminate].
Qed.

(** A nested model is accepted again once its own round trip holds. *)
Lemma model_validator_again {A} (validate : gmap string value -> result A)
    (serialize : A -> bool -> gmap string value) v a :
  (forall d x, validate d = Ok x -> validate (serialize x true) = Ok x) ->
  model_validator validate v = Ok a ->
  model_validator validate (VDict (serialize a true)) = Ok a.
Proof. intros Hrt H. apply model_validator_Ok_inv in H as [d H]. simpl. eauto. Qed.

Create HintDb again.
Hint Resolve constr_stable confloat_again bool_validator_again
  enum_validator_again : again.

(** The side conditions of [field_again], by the shape of the field; one
    that needs a lemma of its own is left to the caller. *)
Ltac field_side :=
  first
    [ solve [lookup_put]
    | discriminate
    | solve [intros [= <-]; reflexivity]
    | solve [intros ? ?; eauto with again]
    | idtac ].

Ltac field_goal to_value :=
  match goal with
  | F : field ?key ?ann ?dflt _ = Ok ?a |- field ?key ?ann ?dflt _ = Ok ?a =>
      apply (field_again key ann dflt _ a to_value _ F); field_side
  end.

Lemma roundtrip_DryBulbCondition data x :
  validate_DryBulbCondition data = Ok x ->
  validate_DryBulbCondition (serialize_DryBulbCondition x true) = Ok x.
Proof.
  unfold validate_DryBulbCondition at 1. intros H. split_ap H.
  unfold validate_DryBulbCondition.
  repeat apply ap_Ok; [reflexivity | field_goal VStr | field_goal VNum ..].
Qed.

Lemma roundtrip_HumidityCondition data x :
  validate_HumidityCondition data = Ok x ->
  validate_HumidityCondition (serialize_HumidityCondition x true) = Ok x.
Proof.
  unfold validate_HumidityCondition at 1. intros H. split_ap H.
  unfold validate_HumidityCondition.
  repeat apply ap_Ok;
    [ reflexivity | field_goal VStr
    | field_goal (enum_value HumidityTypes_value)
    | field_goal VNum | field_goal VNum | field_goal VBool .. ].
Qed.

Lemma roundtrip_WindCondition data x :
  validate_WindCondition data = Ok x ->
  validate_WindCondition (serialize_WindCondition x true) = Ok x.
Proof.
  unfold validate_WindCondition at 1. intros H. split_ap H.
  unfold validate_WindCondition.
  repeat apply ap_Ok; [reflexivity | field_goal VStr | field_goal VNum ..].
Qed.

Lemma is_invalid_ap_l {A B} (f : result (A -> B)) (x : result A) :
  is_invalid f -> is_invalid (f <*> x).
Proof. destruct f, x; simpl; tauto. Qed.

Lemma is_invalid_ap_r {A B} (f : result (A -> B)) (x : result A) :
  is_invalid x -> is_invalid (f <*> x).
Proof. destruct f, x; simpl; tauto. Qed.

Lemma is_invalid_at_loc {A} key (r : result A) :
  is_invalid r -> is_invalid (at_loc key r).
Proof. by destruct r. Qed.

Lemma roundtrip_ASHRAEClearSky data x :
  Date_round_trip ->
  validate_ASHRAEClearSky data = Ok x ->
  validate_ASHRAEClearSky (serialize_ASHRAEClearSky x true) = Ok x.
Proof.
  intros HD. unfold validate_ASHRAEClearSky at 1. intros H. split_ap H.
  unfold validate_ASHRAEClearSky.
  repeat apply ap_Ok;
    [ reflexivity | field_goal VStr
    | field_goal (fun d => VDict (serialize_Date d true))
    | field_goal VNum | field_goal VBool ].
  intros v Hv. by apply model_validator_again with (v := v).
Qed.

Lemma roundtrip_ASHRAETau data x :
  Date_round_trip ->
  validate_ASHRAETau data = Ok x ->
  validate_ASHRAETau (serialize_ASHRAETau x true) = Ok x.
Proof.
  intros HD. unfold validate_ASHRAETau at 1. intros H. split_ap H.
  unfold validate_ASHRAETau.
  repeat apply ap_Ok;
    [ reflexivity | field_goal VStr
    | field_goal (fun d => VDict (serialize_Date d true))
    | field_goal VNum | field_goal VNum | field_goal VBool ].
  intros v Hv. by apply model_validator_again with (v := v).
Qed.

(** The discriminator a validated [ASHRAETau] carries matches its pattern. *)
Lemma ASHRAETau_type_match data x :
  validate_ASHRAETau data = Ok x -> re_match "^ASHRAETau$" (ASHRAETau_type x) = true.
Proof.
  unfold validate_ASHRAETau. intros H. split_ap H. simpl.
  apply field_Ok_inv in Fld3 as [[_ [= <-]] | (v & _ & _ & Hv)];
    [reflexivity | by apply constr_Ok_match in Hv].
Qed.

(** ... and so the first member of the union refuses what an [ASHRAETau]
    serialises to. *)
Lemma ASHRAEClearSky_refuses_ASHRAETau (x : ASHRAETau Date) :
  re_match "^ASHRAETau$" (ASHRAETau_type x) = true ->
  is_invalid (validate_ASHRAEClearSky (serialize_ASHRAETau x true)).
Proof.
  intros H. apply (re_match_anchored "ASHRAETau") in H.
  unfold validate_ASHRAEClearSky.
  do 3 apply is_invalid_ap_l. apply is_invalid_ap_r.
  unfold field. replace (serialize_ASHRAETau x true !! "type")
    with (Some (VStr (ASHRAETau_type x))) by (symmetry; lookup_put).
  apply is_invalid_at_loc. rewrite constr_VStr.
  by destruct H as [-> | ->].
Qed.

Lemma roundtrip_sky_condition v x :
  Date_round_trip ->
  validate_sky_condition v = Ok x ->
  validate_sky_condition (serialize_sky_condition x true) = Ok x.
Proof.
  intros HD. unfold validate_sky_condition, union_validator.
  destruct (model_validator validate_ASHRAEClearSky v) as [c|ec] eqn:Ec.
  - intros [= <-]. simpl.
    apply model_validator_Ok_inv in Ec as [d Ec].
    by rewrite (roundtrip_ASHRAEClearSky _ _ HD Ec).
  - destruct (model_validator validate_ASHRAETau v) as [t|et] eqn:Et;
      [|discriminate].
    intros [= <-]. simpl.
    apply model_validator_Ok_inv in Et as [d Et].
    pose proof (ASHRAEClearSky_refuses_ASHRAETau t (ASHRAETau_type_match _ _ Et))
      as Hno.
    destruct (validate_ASHRAEClearSky (serialize_ASHRAETau t true)); [done|].
    by rewrite (roundtrip_ASHRAETau _ _ HD Et).
Qed.

Lemma roundtrip_DesignDay data x :
  Date_round_trip -> name_accepted_again ->
  validate_DesignDay data = Ok x ->
  validate_DesignDay (serialize_DesignDay x true) = Ok x.
Proof.
  intros HD HN. unfold validate_DesignDay at 1. intros H. split_ap H.
  unfold validate_DesignDay.
  repeat apply ap_Ok;
    [ reflexivity | field_goal VStr | field_goal VStr
    | field_goal (enum_value DesignDayTypes_value)
    | field_goal (fun c => VDict (serialize_DryBulbCondition c true))
    | field_goal (fun c => VDict (serialize_HumidityCondition c true))
    | field_goal (fun c => VDict (serialize_WindCondition c true))
    | field_goal (fun c => serialize_sky_condition c true) ].
  - intros v Hv. apply model_validator_again with (v := v); [|done].
    apply roundtrip_DryBulbCondition.
  - intros v Hv. apply model_validator_again with (v := v); [|done].
    apply roundtrip_HumidityCondition.
  - intros v Hv. apply model_validator_again with (v := v); [|done].
    apply roundtrip_WindCondition.
  - intros v Hv. by apply roundtrip_sky_condition with (v := v).
  - by destruct a.
Qed.

(** ** Fields read one key *)

Lemma field_ext {A} key (ann : validator A) dflt data data' :
  data !! key = data' !! key ->
  field key ann dflt data = field key ann dflt data'.
Proof. intros E. unfold field. by rewrite E. Qed.

(** A bounded number field whose entry reads as the number [x]. *)
Lemma field_confloat key ge le dflt data v x :
  data !! key = Some v -> float_validator v = Ok x ->
  field key (confloat ge le) dflt data
  = at_loc key (number_size_validator ge le x).
Proof.
  intros E Hx. unfold field, confloat. rewrite E, Hx. simpl.
  by destruct v.
Qed.

Lemma errors_at_loc {A} key (r : result A) :
  errors (at_loc key r) = map (fun e => Error (key :: loc e) (kind e)) (errors r).
Proof. by destruct r. Qed.


(** ** Dry-bulb bounds *)

(** The bounds on a mapping of values.  Take a dry-bulb mapping whose
    [dry_bulb_max] reads as the number [x] and whose [dry_bulb_range] reads
    as [r], the discriminator being absent or accepted.  Validation succeeds
    exactly when [-90 <= x <= 70] and
    [0 <= r], and the instance then holds [x] and [r] themselves.  Whatever
    the rest of the mapping, an [x] outside [-90, 70] makes validation fail
    with an error located at [dry_bulb_max] whose class is
    [ConstraintViolation]. *)
Theorem DryBulbCondition_bounds data v_max x :
  data !! "dry_bulb_max" = Some v_max -> float_validator v_max = Ok x ->
  (forall t v_range r,
     field "type" (constr "^DryBulbCondition$") (Some "DryBulbCondition") data
       = Ok t ->
     data !! "dry_bulb_range" = Some v_range -> float_validator v_range = Ok r ->
     (dry_bulb_max_in_bounds x && dry_bulb_range_in_bounds r = true ->
      validate_DryBulbCondition data
      = Ok {| DryBulbCondition_type := t; dry_bulb_max := x; dry_bulb_range := r |})
     /\
     (dry_bulb_max_in_bounds x && dry_bulb_range_in_bounds r = false ->
      is_invalid (validate_DryBulbCondition data)))
  /\
  (dry_bulb_max_in_bounds x = false ->
   is_invalid (validate_DryBulbCondition data) /\
   exists e, e ∈ errors (validate_DryBulbCondition data) /\
             loc e = ["dry_bulb_max"] /\
             classify (kind e) = ConstraintViolation).
Proof.
  intros Emax Hx. unfold validate_DryBulbCondition.
  rewrite (field_confloat "dry_bulb_max" _ _ _ _ _ _ Emax Hx).
  unfold dry_bulb_max_in_bounds, dry_bulb_range_in_bounds.
  split.
  - intros t v_range r Ht Erange Hr.
    rewrite Ht, (field_confloat "dry_bulb_range" _ _ _ _ _ _ Erange Hr).
    unfold number_size_validator.
    destruct (PrimFloat.leb (-90) x), (PrimFloat.leb x 70), (PrimFloat.leb 0 r);
      simpl; split; (reflexivity || discriminate || exact I || idtac).
    all: try (intros _; exact I).
  - intros Hout.
    assert (Herr : exists k, classify k = ConstraintViolation /\
              number_size_validator (Some (-90)%float) (Some 70%float) x
              = Invalid [Error [] k]).
    { unfold number_size_validator.
      destruct (PrimFloat.leb (-90) x), (PrimFloat.leb x 70);
        try discriminate; eexists; split; try reflexivity; reflexivity. }
    destruct Herr as (k & Hk & ->). simpl.
    split.
    + apply is_invalid_ap_l, is_invalid_ap_r. exact I.
    + exists (Error ["dry_bulb_max"] k). split; [|by split].
      in_errors.
Qed.

(** ** Integers beyond the doubles *)

(** On a mapping that holds no [int] the call returns, and what it returns
    is [validate_DryBulbCondition] of the mapping. *)
Lemma field_entry_values {A} key (ann : validator A) ann_entry dflt data :
  (forall v, ann_entry (EValue v) = Returns (ann v)) ->
  field_entry key ann_entry dflt (EValue <$> data)
  = Returns (field key ann dflt data).
Proof.
  intros Hann. unfold field_entry, field. rewrite lookup_fmap.
  destruct (data !! key) as [v|]; simpl; [|done].
  rewrite Hann. by destruct v.
Qed.

Lemma validate_DryBulbCondition_entries_values data :
  validate_DryBulbCondition_entries (EValue <$> data)
  = Returns (validate_DryBulbCondition data).
Proof.
  unfold validate_DryBulbCondition_entries, validate_DryBulbCondition.
  by rewrite (field_entry_values "type" (constr "^DryBulbCondition$")),
    (field_entry_values "dry_bulb_max"
       (confloat (Some (-90)%float) (Some 70%float))),
    (field_entry_values "dry_bulb_range" (confloat (Some 0%float) None)).
Qed.

(** An [int] that [float()] converts is read as that double. *)
Lemma confloat_entry_int ge le n f :
  float_of_int n = Some f ->
  confloat_entry ge le (EInt n) = Returns (confloat ge le (VNum f)).
Proof. intros H. unfold confloat_entry, float_validator_entry. by rewrite H. Qed.

(** A number field lets an exception escape exactly when its entry is an
    [int] beyond the doubles. *)
Lemma field_entry_confloat_escapes key ge le dflt data x :
  field_entry key (confloat_entry ge le) dflt data = Escapes x <->
  exists n, data !! key = Some (EInt n) /\ float_of_int n = None.
Proof.
  unfold field_entry, confloat_entry, float_validator_entry.
  destruct (data !! key) as [[n|v]|] eqn:E; simpl.
  - destruct (float_of_int n) as [f|] eqn:F.
    + split; [discriminate|]. intros (m & [= <-] & Hm). congruence.
    + destruct x. split; [by exists n | done].
  - split; [by destruct v | by intros (m & [=] & _)].
  - split; [discriminate | by intros (m & [=] & _)].
Qed.

Lemma field_entry_constr_returns key regex dflt data :
  exists r, field_entry key (constr_entry regex) dflt data = Returns r.
Proof.
  unfold field_entry.
  destruct (data !! key) as [[n|v]|]; simpl; eauto. destruct v; eauto.
Qed.

(** The call of [DryBulbCondition] ends in an exception exactly when
    [dry_bulb_max] or [dry_bulb_range] is an [int] beyond the doubles. *)
Lemma validate_DryBulbCondition_entries_escapes data :
  (exists x, validate_DryBulbCondition_entries data = Escapes x) <->
  exists key n, (key = "dry_bulb_max" \/ key = "dry_bulb_range") /\
                data !! key = Some (EInt n) /\ float_of_int n = None.
Proof.
  unfold validate_DryBulbCondition_entries.
  destruct (field_entry_constr_returns "type" "^DryBulbCondition$"
              (Some "DryBulbCondition") data) as [rt ->].
  cbn [ap_outcome].
  destruct (field_entry "dry_bulb_max" _ _ data) as [rm|xm] eqn:Em;
    destruct (field_entry "dry_bulb_range" _ _ data) as [rr|xr] eqn:Er;
    cbn [ap_outcome]; split.
  - by intros [x [=]].
  - intros (key & n & [-> | ->] & Hn).
    + by rewrite (proj2 (field_entry_confloat_escapes _ _ _ _ _ OverflowError)
                    (ex_intro _ n Hn)) in Em.
    + by rewrite (proj2 (field_entry_confloat_escapes _ _ _ _ _ OverflowError)
                    (ex_intro _ n Hn)) in Er.
  - intros _. apply field_entry_confloat_escapes in Er as (n & Hn).
    exists "dry_bulb_range", n. auto.
  - eauto.
  - intros _. apply field_entry_confloat_escapes in Em as (n & Hn).
    exists "dry_bulb_max", n. auto.
  - eauto.
  - intros _. apply field_entry_confloat_escapes in Em as (n & Hn).
    exists "dry_bulb_max", n. auto.
  - eauto.
Qed.

(** A number field whose entry is read as the double [x]. *)
Lemma field_entry_confloat key ge le dflt data e x :
  data !! key = Some e -> float_validator_entry e = Returns (Ok x) ->
  field_entry key (confloat_entry ge le) dflt data
  = Returns (at_loc key (number_size_validator ge le x)).
Proof.
  intros E Hx. unfold field_entry, confloat_entry. rewrite E, Hx.
  destruct e as [n|v]; [done|]. by destruct v.
Qed.

(** C3, for numbers that [float()] reads.  Take a dry-bulb mapping of
    entries whose [dry_bulb_max] is read as the double [x] and whose
    [dry_bulb_range] is read as [r] (a [float], or an [int] that [float()]
    converts), the discriminator being absent or accepted.  The call returns
    an instance exactly when [-90 <= x <= 70] and [0 <= r], and the instance
    holds [x] and [r]; otherwise it returns errors.  An [x] outside
    [-90, 70] gives an error located at [dry_bulb_max] whose class is
    [ConstraintViolation], whatever the rest of the mapping, as long as
    [dry_bulb_range] is no [int] beyond the doubles.  When it is one, the
    call returns nothing: [OverflowError] escapes. *)
Theorem DryBulbCondition_bounds_on_entries data e_max x :
  data !! "dry_bulb_max" = Some e_max ->
  float_validator_entry e_max = Returns (Ok x) ->
  (forall t e_range r,
     field_entry "type" (constr_entry "^DryBulbCondition$")
       (Some "DryBulbCondition") data = Returns (Ok t) ->
     data !! "dry_bulb_range" = Some e_range ->
     float_validator_entry e_range = Returns (Ok r) ->
     (dry_bulb_max_in_bounds x && dry_bulb_range_in_bounds r = true ->
      validate_DryBulbCondition_entries data
      = Returns (Ok {| DryBulbCondition_type := t; dry_bulb_max := x;
                       dry_bulb_range := r |}))
     /\
     (dry_bulb_max_in_bounds x && dry_bulb_range_in_bounds r = false ->
      exists errs,
        validate_DryBulbCondition_entries data = Returns (Invalid errs)))
  /\
  (dry_bulb_max_in_bounds x = false ->
   (forall n, data !! "dry_bulb_range" = Some (EInt n) ->
              float_of_int n <> None) ->
   exists errs e,
     validate_DryBulbCondition_entries data = Returns (Invalid errs) /\
     e ∈ errs /\ loc e = ["dry_bulb_max"] /\
     classify (kind e) = ConstraintViolation)
  /\
  (forall n, data !! "dry_bulb_range" = Some (EInt n) ->
     float_of_int n = None ->
     validate_DryBulbCondition_entries data = Escapes OverflowError).
Proof.
  intros Emax Hx. unfold validate_DryBulbCondition_entries.
  rewrite (field_entry_confloat "dry_bulb_max" _ _ _ _ _ _ Emax Hx).
  unfold dry_bulb_max_in_bounds, dry_bulb_range_in_bounds.
  repeat apply conj.
  - intros t e_range r Ht Erange Hr.
    rewrite Ht, (field_entry_confloat "dry_bulb_range" _ _ _ _ _ _ Erange Hr).
    unfold number_size_validator.
    destruct (PrimFloat.leb (-90) x), (PrimFloat.leb x 70), (PrimFloat.leb 0 r);
      simpl; split; intros H; try discriminate H; try reflexivity;
      eexists; reflexivity.
  - intros Hout Hconv.
    destruct (field_entry_constr_returns "type" "^DryBulbCondition$"
                (Some "DryBulbCondition") data) as [rt ->].
    assert (Herr : exists k, classify k = ConstraintViolation /\
              number_size_validator (Some (-90)%float) (Some 70%float) x
              = Invalid [Error [] k]).
    { unfold number_size_validator.
      destruct (PrimFloat.leb (-90) x), (PrimFloat.leb x 70);
        try discriminate; eexists; split; try reflexivity; reflexivity. }
    destruct Herr as (k & Hk & ->).
    destruct (field_entry "dry_bulb_range" _ _ data) as [rr|xr] eqn:Er.
    + exists (errors (Ok Build_DryBulbCondition <*> rt
                      <*> Invalid [Error ["dry_bulb_max"] k] <*> rr)),
             (Error ["dry_bulb_max"] k).
      split; [by destruct rt, rr | split; [|by split]].
      rewrite !errors_ap. in_errors.
    + apply field_entry_confloat_escapes in Er as (n & En & Hn).
      by destruct (Hconv n En).
  - intros n En Hn.
    rewrite (proj2 (field_entry_confloat_escapes "dry_bulb_range" _ _ _ _
                      OverflowError) (ex_intro _ n (conj En Hn))).
    destruct (field_entry_constr_returns "type" "^DryBulbCondition$"
                (Some "DryBulbCondition") data) as [rt ->].
    reflexivity.
Qed.

(** ** Defaults *)

Lemma field_default_used {A} key (ann : validator A) a0 data a :
  field key ann (Some a0) data = Ok a -> data !! key = None -> a = a0.
Proof. unfold field. intros H E. rewrite E in H. by injection H. Qed.

(** C6.  A humidity instance validated from a mapping without
    [barometric_pressure] holds 101325 there, and [false] for [rain] and for
    [snow_on_ground] when these are absent; a wind instance validated from a
    mapping without [wind_direction] holds 0.  And a humidity mapping that
    omits [barometric_pressure] does validate as soon as each of its other
    fields does. *)
Theorem defaults_of_absent_fields :
  (forall data h, validate_HumidityCondition data = Ok h ->
     (data !! "barometric_pressure" = None ->
      barometric_pressure h = 101325%float) /\
     (data !! "rain" = None -> rain h = false) /\
     (data !! "snow_on_ground" = None -> snow_on_ground h = false)) /\
  (forall data w, validate_WindCondition data = Ok w ->
     data !! "wind_direction" = None -> wind_direction w = 0%float) /\
  (forall data t ht hv rn sn,
     data !! "barometric_pressure" = None ->
     field "type" (constr "^HumidityCondition$") (Some "HumidityCondition") data
       = Ok t ->
     field "humidity_type"
       (enum_validator HumidityTypes_members HumidityTypes_value) required data
       = Ok ht ->
     field "humidity_value" (confloat None None) required data = Ok hv ->
     field "rain" bool_validator (Some false) data = Ok rn ->
     field "snow_on_ground" bool_validator (Some false) data = Ok sn ->
     validate_HumidityCondition data
     = Ok {| HumidityCondition_type := t; humidity_type := ht;
             humidity_value := hv; barometric_pressure := 101325%float;
             rain := rn; snow_on_ground := sn |}).
Proof.
  split; [|split].
  - intros data h H. unfold validate_HumidityCondition in H. split_ap H. simpl.
    repeat split; intros E; eapply field_default_used; eauto.
  - intros data w H E. unfold validate_WindCondition in H. split_ap H. simpl.
    eapply field_default_used; eauto.
  - intros data t ht hv rn sn E Ht Hht Hhv Hrn Hsn.
    unfold validate_HumidityCondition.
    by rewrite Ht, Hht, Hhv, Hrn, Hsn, (field_absent _ _ _ _ E).
Qed.

(** ** Partial serialisation *)

Lemma lookup_put_eq {A} inc key (to_value : A -> value) is_default a out :
  put inc key to_value is_default a out !! key
  = if negb inc && is_default a then out !! key else Some (to_value a).
Proof. unfold put. destruct (negb inc && is_default a); [done|]. apply lookup_insert_eq. Qed.

Lemma lookup_put_ne {A} inc key (to_value : A -> value) is_default a out k :
  key <> k ->
  put inc key to_value is_default a out !! k = out !! k.
Proof.
  intros Hne. unfold put. destruct (negb inc && is_default a); [done|].
  by apply lookup_insert_ne.
Qed.

Ltac lookup_ser :=
  repeat first [ rewrite lookup_put_eq | rewrite lookup_put_ne by done ];
  unfold no_default; cbn [negb andb]; rewrite ?lookup_empty.

(** C7.  With [includeDefaults = false] a field is written exactly when its
    value differs from its declared default.  For a wind condition:
    [wind_direction] is left out exactly when it equals 0, [type] exactly
    when it is ["WindCondition"], and [wind_speed], which has no default, is
    always written; so a wind condition validated from a mapping without
    [wind_direction] serialises without that key.  The same holds field by
    field for the humidity condition. *)
Theorem partial_serialization_omits_defaults :
  (forall w,
     serialize_WindCondition w false !! "wind_direction"
     = (if PrimFloat.eqb 0%float (wind_direction w) then None
        else Some (VNum (wind_direction w))) /\
     serialize_WindCondition w false !! "type"
     = (if String.eqb "WindCondition" (WindCondition_type w) then None
        else Some (VStr (WindCondition_type w))) /\
     serialize_WindCondition w false !! "wind_speed"
     = Some (VNum (wind_speed w))) /\
  (forall data w, validate_WindCondition data = Ok w ->
     data !! "wind_direction" = None ->
     serialize_WindCondition w false !! "wind_direction" = None) /\
  (forall h,
     serialize_HumidityCondition h false !! "barometric_pressure"
     = (if PrimFloat.eqb 101325%float (barometric_pressure h) then None
        else Some (VNum (barometric_pressure h))) /\
     serialize_HumidityCondition h false !! "rain"
     = (if rain h then Some (VBool true) else None) /\
     serialize_HumidityCondition h false !! "snow_on_ground"
     = (if snow_on_ground h then Some (VBool true) else None) /\
     serialize_HumidityCondition h false !! "humidity_type"
     = Some (VStr (HumidityTypes_value (humidity_type h))) /\
     serialize_HumidityCondition h false !! "humidity_value"
     = Some (VNum (humidity_value h))).
Proof.
  split; [|split].
  - intros w. unfold serialize_WindCondition.
    split; [|split]; lookup_ser; reflexivity.
  - intros data w H E. unfold validate_WindCondition in H. split_ap H.
    rewrite (field_default_used _ _ _ _ _ Fld E).
    unfold serialize_WindCondition. lookup_ser. reflexivity.
  - intros h. unfold serialize_HumidityCondition.
    repeat apply conj; lookup_ser; try reflexivity;
      by destruct h as [? ? ? ? [] []].
Qed.

(** ** Keys that are no field *)

(** Validation reads the mapping at the declared keys only. *)
Lemma validate_DryBulbCondition_ext data data' :
  (forall key, key ∈ DryBulbCondition_fields -> data !! key = data' !! key) ->
  validate_DryBulbCondition data = validate_DryBulbCondition data'.
Proof.
  intros H. unfold validate_DryBulbCondition.
  rewrite (field_ext "type" _ _ data data'),
          (field_ext "dry_bulb_max" _ _ data data'),
          (field_ext "dry_bulb_range" _ _ data data');
    try reflexivity; apply H; repeat constructor.
Qed.

Lemma validate_HumidityCondition_ext data data' :
  (forall key, key ∈ HumidityCondition_fields -> data !! key = data' !! key) ->
  validate_HumidityCondition data = validate_HumidityCondition data'.
Proof.
  intros H. unfold validate_HumidityCondition.
  rewrite (field_ext "type" _ _ data data'),
          (field_ext "humidity_type" _ _ data data'),
          (field_ext "humidity_value" _ _ data data'),
          (field_ext "barometric_pressure" _ _ data data'),
          (field_ext "rain" _ _ data data'),
          (field_ext "snow_on_ground" _ _ data data');
    try reflexivity; apply H; repeat constructor.
Qed.

Lemma validate_WindCondition_ext data data' :
  (forall key, key ∈ WindCondition_fields -> data !! key = data' !! key) ->
  validate_WindCondition data = validate_WindCondition data'.
Proof.
  intros H. unfold validate_WindCondition.
  rewrite (field_ext "type" _ _ data data'),
          (field_ext "wind_speed" _ _ data data'),
          (field_ext "wind_direction" _ _ data data');
    try reflexivity; apply H; repeat constructor.
Qed.

Lemma lookup_insert_undeclared (fields : list string) k v
    (data : gmap string value) key :
  k ∉ fields -> key ∈ fields -> <[k := v]> data !! key = data !! key.
Proof. intros Hk Hkey. apply lookup_insert_ne. by intros ->. Qed.

Ltac not_a_field H :=
  repeat (apply not_elem_of_cons in H as [? H]);
  repeat (rewrite lookup_put_ne by done); apply lookup_empty.

(** C10.  A leaf condition model reads its mapping at its declared fields
    only: two mappings that agree there have the same outcome, whatever other
    keys either holds.  In particular a key [k] that is not a declared field
    is ignored: adding it, with any value, leaves the outcome of validation
    as it was (a mapping that validates keeps validating, to the same
    instance), and [k] is no key of the serialisation of any instance. *)
Theorem undeclared_keys_are_ignored :
  ((forall data data',
      (forall key, key ∈ DryBulbCondition_fields -> data !! key = data' !! key) ->
      validate_DryBulbCondition data = validate_DryBulbCondition data') /\
   (forall data data',
      (forall key, key ∈ HumidityCondition_fields -> data !! key = data' !! key) ->
      validate_HumidityCondition data = validate_HumidityCondition data') /\
   (forall data data',
      (forall key, key ∈ WindCondition_fields -> data !! key = data' !! key) ->
      validate_WindCondition data = validate_WindCondition data')) /\
  (forall k v,
     (k ∉ DryBulbCondition_fields ->
      (forall data, validate_DryBulbCondition (<[k := v]> data)
                    = validate_DryBulbCondition data) /\
      (forall x inc, serialize_DryBulbCondition x inc !! k = None)) /\
     (k ∉ HumidityCondition_fields ->
      (forall data, validate_HumidityCondition (<[k := v]> data)
                    = validate_HumidityCondition data) /\
      (forall x inc, serialize_HumidityCondition x inc !! k = None)) /\
     (k ∉ WindCondition_fields ->
      (forall data, validate_WindCondition (<[k := v]> data)
                    = validate_WindCondition data) /\
      (forall x inc, serialize_WindCondition x inc !! k = None))).
Proof.
  split.
  - repeat apply conj.
    + apply validate_DryBulbCondition_ext.
    + apply validate_HumidityCondition_ext.
    + apply validate_WindCondition_ext.
  - intros k v. repeat apply conj; intros Hk.
    + split.
      * intros data. apply validate_DryBulbCondition_ext.
        intros key. by apply lookup_insert_undeclared.
      * intros x inc. unfold serialize_DryBulbCondition. not_a_field Hk.
    + split.
      * intros data. apply validate_HumidityCondition_ext.
        intros key. by apply lookup_insert_undeclared.
      * intros x inc. unfold serialize_HumidityCondition. not_a_field Hk.
    + split.
      * intros data. apply validate_WindCondition_ext.
        intros key. by apply lookup_insert_undeclared.
      * intros x inc. unfold serialize_WindCondition. not_a_field Hk.
Qed.

(** ** The union, member by member *)

(** C9.  A sky-condition mapping without [type] whose [date], [clearness]
    and [daylight_savings] fields validate is an [ASHRAEClearSky], the first
    member of the union, with [type] at its default ["ASHRAEClearSky"];
    entries [tau_b] and [tau_d], whatever they hold, change nothing, and no
    such key is in the serialisation of the result. *)
Theorem untagged_sky_condition_is_clear_sky data d c ds v_b v_d :
  data !! "type" = None ->
  field "date" (model_validator validate_Date) required data = Ok d ->
  field "clearness" (confloat (Some 0%float) (Some 1.2%float)) required data
    = Ok c ->
  field "daylight_savings" bool_validator (Some false) data = Ok ds ->
  let sky := {| ASHRAEClearSky_type := "ASHRAEClearSky";
                ASHRAEClearSky_date := d; clearness := c;
                ASHRAEClearSky_daylight_savings := ds |} in
  validate_sky_condition (VDict data) = Ok (inl sky) /\
  validate_sky_condition (VDict (<["tau_b" := v_b]> (<["tau_d" := v_d]> data)))
    = Ok (inl sky) /\
  forall inc, serialize_ASHRAEClearSky sky inc !! "tau_b" = None /\
              serialize_ASHRAEClearSky sky inc !! "tau_d" = None.
Proof.
  intros Et Hd Hc Hds sky.
  assert (H : validate_ASHRAEClearSky data = Ok sky).
  { unfold validate_ASHRAEClearSky.
    by rewrite (field_absent _ _ _ _ Et), Hd, Hc, Hds. }
  repeat apply conj.
  - unfold validate_sky_condition, union_validator. simpl. by rewrite H.
  - unfold validate_sky_condition, union_validator. simpl.
    unfold validate_ASHRAEClearSky.
    rewrite !field_insert_ne by done.
    fold (validate_ASHRAEClearSky data). by rewrite H.
  - intros inc. unfold serialize_ASHRAEClearSky.
    split; lookup_ser; reflexivity.
Qed.

(** ** The day types *)

Lemma day_type_accepted_iff s :
  (exists e, enum_validator DesignDayTypes_members DesignDayTypes_value (VStr s)
             = Ok e)
  <-> s ∈ map DesignDayTypes_value DesignDayTypes_members.
Proof.
  split.
  - intros [e H]. apply enum_validator_Ok_inv in H as [[= ->] _].
    destruct e; simpl; repeat constructor.
  - simpl. intros H.
    repeat (apply elem_of_cons in H as [-> | H]; [eexists; reflexivity|]).
    by apply elem_of_nil in H.
Qed.

(** C2.  ["Saturday"] is not a value of [DesignDayTypes]: the enumeration of
    the source goes from [friday] to [holiday].  So ["Holiday"] is accepted,
    ["Funday"] is refused, and ["Saturday"] is refused as well: a design day
    whose [day_type] is ["Saturday"] does not validate, whatever else the
    mapping holds. *)
Theorem day_type_Saturday_is_refused data :
  enum_validator DesignDayTypes_members DesignDayTypes_value (VStr "Holiday")
    = Ok holiday /\
  enum_validator DesignDayTypes_members DesignDayTypes_value (VStr "Funday")
    = raise enum_type /\
  enum_validator DesignDayTypes_members DesignDayTypes_value (VStr "Saturday")
    = raise enum_type /\
  ("Saturday" ∉ map DesignDayTypes_value DesignDayTypes_members) /\
  is_invalid (validate_DesignDay (<["day_type" := VStr "Saturday"]> data)) /\
  Error ["day_type"] enum_type
    ∈ errors (validate_DesignDay (<["day_type" := VStr "Saturday"]> data)).
Proof.
  repeat apply conj; try reflexivity.
  - simpl. intros H.
    repeat (apply elem_of_cons in H as [[=] | H]). by apply elem_of_nil in H.
  - unfold validate_DesignDay.
    do 4 apply is_invalid_ap_l. apply is_invalid_ap_r.
    unfold field. by rewrite lookup_insert_eq.
  - unfold validate_DesignDay. rewrite !errors_ap.
    unfold field at 3. rewrite lookup_insert_eq. in_errors.
Qed.

(** ** The discriminator of a leaf model *)

(** A [type] that the pattern does not match is reported at [type], with
    the pattern. *)
Lemma type_field_refused regex dflt data t :
  data !! "type" = Some (VStr t) -> re_match regex t = false ->
  field "type" (constr regex) dflt data = Invalid [Error ["type"] (str_regex regex)].
Proof. intros E H. unfold field. rewrite E, constr_VStr, H. reflexivity. Qed.

(** What a validated leaf condition can carry as [type]: the name of its
    class, or that name followed by a line feed. *)
Lemma type_field_values regex lit dflt data t :
  regex = "^" +:+ lit +:+ "$" -> dflt = lit ->
  field "type" (constr regex) (Some dflt) data = Ok t ->
  t = lit \/ t = lit +:+ LF.
Proof.
  intros -> -> H. apply re_match_anchored.
  apply field_Ok_inv in H as [[_ [= <-]] | (v & _ & _ & Hv)].
  - apply re_match_anchored. by left.
  - by apply constr_Ok_match in Hv.
Qed.

Lemma leaf_type_values :
  (forall data x, validate_DryBulbCondition data = Ok x ->
     DryBulbCondition_type x = "DryBulbCondition" \/
     DryBulbCondition_type x = "DryBulbCondition" +:+ LF) /\
  (forall data x, validate_HumidityCondition data = Ok x ->
     HumidityCondition_type x = "HumidityCondition" \/
     HumidityCondition_type x = "HumidityCondition" +:+ LF) /\
  (forall data x, validate_WindCondition data = Ok x ->
     WindCondition_type x = "WindCondition" \/
     WindCondition_type x = "WindCondition" +:+ LF).
Proof.
  repeat apply conj; intros data x H.
  - unfold validate_DryBulbCondition in H. split_ap H. simpl.
    by eapply (type_field_values _ "DryBulbCondition").
  - unfold validate_HumidityCondition in H. split_ap H. simpl.
    by eapply (type_field_values _ "HumidityCondition").
  - unfold validate_WindCondition in H. split_ap H. simpl.
    by eapply (type_field_values _ "WindCondition").
Qed.

(** Any other string as [type] is refused. *)
Lemma leaf_type_mismatch_refused data t :
  data !! "type" = Some (VStr t) ->
  (t <> "DryBulbCondition" -> t <> "DryBulbCondition" +:+ LF ->
   is_invalid (validate_DryBulbCondition data)) /\
  (t <> "HumidityCondition" -> t <> "HumidityCondition" +:+ LF ->
   is_invalid (validate_HumidityCondition data)) /\
  (t <> "WindCondition" -> t <> "WindCondition" +:+ LF ->
   is_invalid (validate_WindCondition data)).
Proof.
  intros E.
  assert (Hno : forall lit, t <> lit -> t <> lit +:+ LF ->
            re_match ("^" +:+ lit +:+ "$") t = false).
  { intros lit H1 H2. destruct (re_match _ t) eqn:M; [|done].
    by apply re_match_anchored in M as [? | ?]. }
  repeat apply conj; intros H1 H2.
  - unfold validate_DryBulbCondition. do 2 apply is_invalid_ap_l.
    apply is_invalid_ap_r.
    by rewrite (type_field_refused _ _ _ _ E (Hno "DryBulbCondition" H1 H2)).
  - unfold validate_HumidityCondition. do 5 apply is_invalid_ap_l.
    apply is_invalid_ap_r.
    by rewrite (type_field_refused _ _ _ _ E (Hno "HumidityCondition" H1 H2)).
  - unfold validate_WindCondition. do 2 apply is_invalid_ap_l.
    apply is_invalid_ap_r.
    by rewrite (type_field_refused _ _ _ _ E (Hno "WindCondition" H1 H2)).
Qed.

(** C8.  The pattern [^Name$] also matches the name followed by a line feed
    ([$] matches before a final line feed), so each leaf model validates a
    mapping whose [type] is its name with a line feed appended, and the
    instance carries that string, which is not the name. *)
Theorem discriminator_with_line_feed_is_accepted :
  validate_DryBulbCondition
    (<["type" := VStr ("DryBulbCondition" +:+ LF)]>
       (<["dry_bulb_max" := VNum 30%float]>
          (<["dry_bulb_range" := VNum 10%float]> ∅)))
  = Ok {| DryBulbCondition_type := "DryBulbCondition" +:+ LF;
          dry_bulb_max := 30%float; dry_bulb_range := 10%float |} /\
  validate_HumidityCondition
    (<["type" := VStr ("HumidityCondition" +:+ LF)]>
       (<["humidity_type" := VStr "Wetbulb"]>
          (<["humidity_value" := VNum 20%float]> ∅)))
  = Ok {| HumidityCondition_type := "HumidityCondition" +:+ LF;
          humidity_type := wetbulb; humidity_value := 20%float;
          barometric_pressure := 101325%float; rain := false;
          snow_on_ground := false |} /\
  validate_WindCondition
    (<["type" := VStr ("WindCondition" +:+ LF)]>
       (<["wind_speed" := VNum 5%float]> ∅))
  = Ok {| WindCondition_type := "WindCondition" +:+ LF;
          wind_speed := 5%float; wind_direction := 0%float |} /\
  "DryBulbCondition" +:+ LF <> "DryBulbCondition" /\
  "HumidityCondition" +:+ LF <> "HumidityCondition" /\
  "WindCondition" +:+ LF <> "WindCondition".
Proof. repeat apply conj; (reflexivity || discriminate). Qed.

(** ** The discriminator of a sky condition *)





(** ** Round trip *)

(** C1.  An instance that validation has produced is read back from its
    full serialisation: for the three leaf conditions, the two sky
    conditions and the design day, validating [serialize x true] gives [x]
    again.  ([Date] and [name] come from classes outside the sources; they
    are asked to read back what they wrote.) *)
Theorem validate_serialize_round_trip :
  Date_round_trip -> name_accepted_again ->
  (forall data x, validate_DryBulbCondition data = Ok x ->
     validate_DryBulbCondition (serialize_DryBulbCondition x true) = Ok x) /\
  (forall data x, validate_HumidityCondition data = Ok x ->
     validate_HumidityCondition (serialize_HumidityCondition x true) = Ok x) /\
  (forall data x, validate_WindCondition data = Ok x ->
     validate_WindCondition (serialize_WindCondition x true) = Ok x) /\
  (forall data x, validate_ASHRAEClearSky data = Ok x ->
     validate_ASHRAEClearSky (serialize_ASHRAEClearSky x true) = Ok x) /\
  (forall data x, validate_ASHRAETau data = Ok x ->
     validate_ASHRAETau (serialize_ASHRAETau x true) = Ok x) /\
  (forall data x, validate_DesignDay data = Ok x ->
     validate_DesignDay (serialize_DesignDay x true) = Ok x).
Proof.
  intros HD HN. repeat apply conj; intros data x H.
  - by apply roundtrip_DryBulbCondition with (data := data).
  - by apply roundtrip_HumidityCondition with (data := data).
  - by apply roundtrip_WindCondition with (data := data).
  - by apply roundtrip_ASHRAEClearSky with (data := data).
  - by apply roundtrip_ASHRAETau with (data := data).
  - by apply roundtrip_DesignDay with (data := data).
Qed.

(** * Further properties of the models *)

(** ** Bounds of the number fields *)

Lemma number_size_validator_cases ge le x :
  (within ge le x = true /\ number_size_validator ge le x = Ok x) \/
  (within ge le x = false /\
   exists k, classify k = ConstraintViolation /\
             number_size_validator ge le x = Invalid [Error [] k]).
Proof.
  unfold within, number_size_validator, raise.
  destruct ge as [g|], le as [l|];
    repeat match goal with
      | |- context [PrimFloat.leb ?a ?b] => destruct (PrimFloat.leb a b)
      end;
    simpl;
    first [ left; split; reflexivity
          | right; split;
            [reflexivity | eexists; split; [|reflexivity]; reflexivity] ].
Qed.

(** A bounded number field whose entry reads as [x]: [x] comes back when it
    is within the bounds, and one constraint error at the key otherwise. *)
Lemma bounded_field_cases key ge le dflt data v x :
  data !! key = Some v -> float_validator v = Ok x ->
  (within ge le x = true /\ field key (confloat ge le) dflt data = Ok x) \/
  (within ge le x = false /\
   exists k, classify k = ConstraintViolation /\
             field key (confloat ge le) dflt data = Invalid [Error [key] k]).
Proof.
  intros E Hx. rewrite (field_confloat _ _ _ _ _ _ _ E Hx).
  destruct (number_size_validator_cases ge le x) as [[W ->] | (W & k & Hk & ->)].
  - by left.
  - right. split; [done|]. by exists k.
Qed.

(** What a bounded number field returns is within its bounds, the default
    included when it is. *)
Lemma bounded_field_within key ge le dflt data x :
  field key (confloat ge le) dflt data = Ok x ->
  (forall a, dflt = Some a -> within ge le a = true) ->
  within ge le x = true.
Proof.
  intros H Hd. apply field_Ok_inv in H as [[_ H] | (v & _ & _ & H)]; [by apply Hd|].
  unfold confloat in H. apply and_then_Ok_inv in H as (y & _ & H).
  destruct (number_size_validator_cases ge le y) as [[W Hy] | (_ & k & _ & Hy)];
    rewrite Hy in H; [|discriminate].
  by injection H as <-.
Qed.

(** Wind: [wind_speed] must lie in [0, 40] and [wind_direction], when it is
    given, in [0, 360].  For a mapping whose discriminator is accepted and
    whose [wind_speed] reads as the number [s]: without [wind_direction]
    validation succeeds exactly when [s] is within its bounds, and the
    instance holds [s] and the direction 0; with a [wind_direction] that
    reads as [d] it succeeds exactly when both are within their bounds, and
    a [d] out of bounds is reported at [wind_direction]. *)
Theorem WindCondition_bounds data t v_speed s :
  field "type" (constr "^WindCondition$") (Some "WindCondition") data = Ok t ->
  data !! "wind_speed" = Some v_speed -> float_validator v_speed = Ok s ->
  (data !! "wind_direction" = None ->
   (within (Some 0%float) (Some 40%float) s = true ->
    validate_WindCondition data
    = Ok {| WindCondition_type := t; wind_speed := s;
            wind_direction := 0%float |}) /\
   (within (Some 0%float) (Some 40%float) s = false ->
    is_invalid (validate_WindCondition data))) /\
  (forall v_dir d,
     data !! "wind_direction" = Some v_dir -> float_validator v_dir = Ok d ->
     (within (Some 0%float) (Some 40%float) s
      && within (Some 0%float) (Some 360%float) d = true ->
      validate_WindCondition data
      = Ok {| WindCondition_type := t; wind_speed := s; wind_direction := d |})
     /\
     (within (Some 0%float) (Some 40%float) s
      && within (Some 0%float) (Some 360%float) d = false ->
      is_invalid (validate_WindCondition data)) /\
     (within (Some 0%float) (Some 360%float) d = false ->
      exists e, e ∈ errors (validate_WindCondition data) /\
                loc e = ["wind_direction"] /\
                classify (kind e) = ConstraintViolation)).
Proof.
  intros Ht Es Hs. unfold validate_WindCondition. rewrite Ht.
  destruct (bounded_field_cases "wind_speed" (Some 0%float) (Some 40%float)
              required data _ _ Es Hs) as [[Ws ->] | (Ws & ks & _ & ->)];
    rewrite Ws; split.
  - intros Ed. rewrite (field_absent _ _ _ _ Ed). by split.
  - intros v_dir d Ed Hd.
    destruct (bounded_field_cases "wind_direction" (Some 0%float)
                (Some 360%float) (Some 0%float) data _ _ Ed Hd)
      as [[Wd ->] | (Wd & kd & Hkd & ->)]; rewrite Wd; simpl.
    + by repeat split.
    + repeat split; try done. intros _.
      exists (Error ["wind_direction"] kd). repeat split; [|done].
      apply elem_of_cons. by left.
  - intros Ed. rewrite (field_absent _ _ _ _ Ed). by split.
  - intros v_dir d Ed Hd.
    destruct (bounded_field_cases "wind_direction" (Some 0%float)
                (Some 360%float) (Some 0%float) data _ _ Ed Hd)
      as [[Wd ->] | (Wd & kd & Hkd & ->)]; rewrite Wd; simpl.
    + by repeat split.
    + repeat split; try done. intros _.
      exists (Error ["wind_direction"] kd). repeat split; [|done].
      rewrite !elem_of_cons. auto.
Qed.


(** Humidity: [humidity_value] has no bound, any number that reads is kept;
    [barometric_pressure], when it is given, must lie in [31000, 120000].
    For a mapping whose other fields validate, whose [humidity_value] reads
    as [x] and whose [barometric_pressure] reads as [p]: validation succeeds
    exactly when [p] is within its bounds, with [x] and [p] in the instance,
    and otherwise reports a constraint error at [barometric_pressure]. *)
Theorem HumidityCondition_pressure_bounds data t ht v_value x rn sn v_p p :
  field "type" (constr "^HumidityCondition$") (Some "HumidityCondition") data
    = Ok t ->
  field "humidity_type"
    (enum_validator HumidityTypes_members HumidityTypes_value) required data
    = Ok ht ->
  data !! "humidity_value" = Some v_value -> float_validator v_value = Ok x ->
  field "rain" bool_validator (Some false) data = Ok rn ->
  field "snow_on_ground" bool_validator (Some false) data = Ok sn ->
  data !! "barometric_pressure" = Some v_p -> float_validator v_p = Ok p ->
  (within (Some 31000%float) (Some 120000%float) p = true ->
   validate_HumidityCondition data
   = Ok {| HumidityCondition_type := t; humidity_type := ht;
           humidity_value := x; barometric_pressure := p;
           rain := rn; snow_on_ground := sn |}) /\
  (within (Some 31000%float) (Some 120000%float) p = false ->
   is_invalid (validate_HumidityCondition data) /\
   exists e, e ∈ errors (validate_HumidityCondition data) /\
             loc e = ["barometric_pressure"] /\
             classify (kind e) = ConstraintViolation).
Proof.
  intros Ht Hht Ex Hx Hrn Hsn Ep Hp. unfold validate_HumidityCondition.
  rewrite Ht, Hht, Hrn, Hsn.
  destruct (bounded_field_cases "humidity_value" None None required data
              _ _ Ex Hx) as [[_ ->] | (W & _)]; [|discriminate].
  destruct (bounded_field_cases "barometric_pressure" (Some 31000%float)
              (Some 120000%float) (Some 101325%float) data _ _ Ep Hp)
    as [[W ->] | (W & k & Hk & ->)]; rewrite W; simpl.
  - by split.
  - split; [done|]. intros _. split; [done|].
    exists (Error ["barometric_pressure"] k). repeat split; [|done].
    apply elem_of_cons. by left.
Qed.

(** The sky classes: [clearness] and [tau_b] must lie in [0, 1.2] and
    [tau_d] in [0, 3].  For a mapping whose other fields validate,
    validation of either class succeeds exactly when its optical numbers
    are within these bounds, and keeps them as they are. *)
Theorem sky_condition_bounds :
  (forall data t d ds v_c c,
     field "type" (constr "^ASHRAEClearSky$") (Some "ASHRAEClearSky") data = Ok t ->
     field "date" (model_validator validate_Date) required data = Ok d ->
     field "daylight_savings" bool_validator (Some false) data = Ok ds ->
     data !! "clearness" = Some v_c -> float_validator v_c = Ok c ->
     (within (Some 0%float) (Some 1.2%float) c = true ->
      validate_ASHRAEClearSky data
      = Ok {| ASHRAEClearSky_type := t; ASHRAEClearSky_date := d;
              clearness := c; ASHRAEClearSky_daylight_savings := ds |}) /\
     (within (Some 0%float) (Some 1.2%float) c = false ->
      is_invalid (validate_ASHRAEClearSky data))) /\
  (forall data t d ds v_b b v_d dd,
     field "type" (constr "^ASHRAETau$") (Some "ASHRAETau") data = Ok t ->
     field "date" (model_validator validate_Date) required data = Ok d ->
     field "daylight_savings" bool_validator (Some false) data = Ok ds ->
     data !! "tau_b" = Some v_b -> float_validator v_b = Ok b ->
     data !! "tau_d" = Some v_d -> float_validator v_d = Ok dd ->
     (within (Some 0%float) (Some 1.2%float) b
      && within (Some 0%float) (Some 3%float) dd = true ->
      validate_ASHRAETau data
      = Ok {| ASHRAETau_type := t; ASHRAETau_date := d; tau_b := b;
              tau_d := dd; ASHRAETau_daylight_savings := ds |}) /\
     (within (Some 0%float) (Some 1.2%float) b
      && within (Some 0%float) (Some 3%float) dd = false ->
      is_invalid (validate_ASHRAETau data))).
Proof.
  split.
  - intros data t d ds v_c c Ht Hd Hds Ec Hc. unfold validate_ASHRAEClearSky.
    rewrite Ht, Hd, Hds.
    destruct (bounded_field_cases "clearness" (Some 0%float) (Some 1.2%float)
                required data _ _ Ec Hc) as [[W ->] | (W & k & _ & ->)];
      rewrite W; by split.
  - intros data t d ds v_b b v_d dd Ht Hd Hds Eb Hb Ed Hdd.
    unfold validate_ASHRAETau. rewrite Ht, Hd, Hds.
    destruct (bounded_field_cases "tau_b" (Some 0%float) (Some 1.2%float)
                required data _ _ Eb Hb) as [[Wb ->] | (Wb & kb & _ & ->)];
      destruct (bounded_field_cases "tau_d" (Some 0%float) (Some 3%float)
                  required data _ _ Ed Hdd) as [[Wd ->] | (Wd & kd & _ & ->)];
      rewrite Wb, Wd; by split.
Qed.

(** ** What every instance satisfies *)

Lemma DryBulbCondition_within_bounds data x :
  validate_DryBulbCondition data = Ok x -> DryBulbCondition_within x = true.
Proof.
  intros H. unfold validate_DryBulbCondition in H. split_ap H.
  unfold DryBulbCondition_within. simpl.
  rewrite (bounded_field_within _ _ _ _ _ _ Fld0) by discriminate.
  by rewrite (bounded_field_within _ _ _ _ _ _ Fld) by discriminate.
Qed.

Lemma HumidityCondition_within_bounds data x :
  validate_HumidityCondition data = Ok x -> HumidityCondition_within x = true.
Proof.
  intros H. unfold validate_HumidityCondition in H. split_ap H.
  unfold HumidityCondition_within. simpl.
  apply (bounded_field_within _ _ _ _ _ _ Fld1). by intros ? [= <-].
Qed.

Lemma WindCondition_within_bounds data x :
  validate_WindCondition data = Ok x -> WindCondition_within x = true.
Proof.
  intros H. unfold validate_WindCondition in H. split_ap H.
  unfold WindCondition_within. simpl.
  rewrite (bounded_field_within _ _ _ _ _ _ Fld0) by discriminate.
  rewrite (bounded_field_within _ _ _ _ _ _ Fld); [done|]. by intros ? [= <-].
Qed.

Lemma ASHRAEClearSky_within_bounds data x :
  validate_ASHRAEClearSky data = Ok x -> ASHRAEClearSky_within x = true.
Proof.
  intros H. unfold validate_ASHRAEClearSky in H. split_ap H.
  unfold ASHRAEClearSky_within. simpl.
  by apply (bounded_field_within _ _ _ _ _ _ Fld0).
Qed.

Lemma ASHRAETau_within_bounds data x :
  validate_ASHRAETau data = Ok x -> ASHRAETau_within x = true.
Proof.
  intros H. unfold validate_ASHRAETau in H. split_ap H.
  unfold ASHRAETau_within. simpl.
  rewrite (bounded_field_within _ _ _ _ _ _ Fld1) by discriminate.
  by rewrite (bounded_field_within _ _ _ _ _ _ Fld0) by discriminate.
Qed.

(** An instance that validation has produced is within the declared bounds,
    in the fields that were given and in those that took their default. *)
Theorem validated_instances_within_bounds :
  (forall data x, validate_DryBulbCondition data = Ok x ->
     DryBulbCondition_within x = true) /\
  (forall data x, validate_HumidityCondition data = Ok x ->
     HumidityCondition_within x = true) /\
  (forall data x, validate_WindCondition data = Ok x ->
     WindCondition_within x = true) /\
  (forall data x, validate_ASHRAEClearSky data = Ok x ->
     ASHRAEClearSky_within x = true) /\
  (forall data x, validate_ASHRAETau data = Ok x ->
     ASHRAETau_within x = true).
Proof.
  repeat apply conj.
  - apply DryBulbCondition_within_bounds.
  - apply HumidityCondition_within_bounds.
  - apply WindCondition_within_bounds.
  - apply ASHRAEClearSky_within_bounds.
  - apply ASHRAETau_within_bounds.
Qed.

(** ** The design day and its conditions *)

Lemma field_lookup_Ok {A} key (ann : validator A) dflt data v a :
  data !! key = Some v -> field key ann dflt data = Ok a -> ann v = Ok a.
Proof.
  intros E H. apply field_Ok_inv in H as [[E' _] | (v' & E' & _ & H)];
    rewrite E in E'; [discriminate | by injection E' as <-].
Qed.

Lemma required_field_Ok_inv {A} key (ann : validator A) data a :
  field key ann required data = Ok a -> exists v, ann v = Ok a.
Proof.
  intros H. apply field_Ok_inv in H as [[_ H] | (v & _ & _ & H)];
    [discriminate | by exists v].
Qed.

Lemma sky_condition_Ok_inv v x :
  validate_sky_condition v = Ok x ->
  match x with
  | inl c => exists d, validate_ASHRAEClearSky d = Ok c
  | inr t => exists d, validate_ASHRAETau d = Ok t
  end.
Proof.
  unfold validate_sky_condition, union_validator.
  destruct (model_validator validate_ASHRAEClearSky v) as [c|ec] eqn:Ec.
  - intros [= <-]. by apply model_validator_Ok_inv in Ec.
  - destruct (model_validator validate_ASHRAETau v) as [t|et] eqn:Et;
      [|discriminate].
    intros [= <-]. by apply model_validator_Ok_inv in Et.
Qed.

(** A design day that validates holds, for each condition, the instance
    that the class of that condition validates from the nested mapping, and
    the member of [DesignDayTypes] whose value is the [day_type] given; all
    four conditions are within their declared bounds. *)
Theorem DesignDay_holds_validated_conditions data x :
  validate_DesignDay data = Ok x ->
  (forall d, data !! "dry_bulb_condition" = Some (VDict d) ->
     validate_DryBulbCondition d = Ok (dry_bulb_condition x)) /\
  (forall d, data !! "humidity_condition" = Some (VDict d) ->
     validate_HumidityCondition d = Ok (humidity_condition x)) /\
  (forall d, data !! "wind_condition" = Some (VDict d) ->
     validate_WindCondition d = Ok (wind_condition x)) /\
  (forall v, data !! "sky_condition" = Some v ->
     validate_sky_condition v = Ok (sky_condition x)) /\
  (forall v, data !! "day_type" = Some v ->
     v = VStr (DesignDayTypes_value (day_type x))) /\
  DryBulbCondition_within (dry_bulb_condition x) = true /\
  HumidityCondition_within (humidity_condition x) = true /\
  WindCondition_within (wind_condition x) = true /\
  sky_condition_within (sky_condition x) = true.
Proof.
  intros H. unfold validate_DesignDay in H. split_ap H. simpl.
  repeat apply conj.
  - intros d E. exact (field_lookup_Ok _ _ _ _ _ _ E Fld2).
  - intros d E. exact (field_lookup_Ok _ _ _ _ _ _ E Fld1).
  - intros d E. exact (field_lookup_Ok _ _ _ _ _ _ E Fld0).
  - intros v E. exact (field_lookup_Ok _ _ _ _ _ _ E Fld).
  - intros v E. pose proof (field_lookup_Ok _ _ _ _ _ _ E Fld3) as Hv.
    by apply enum_validator_Ok_inv in Hv as [-> _].
  - apply required_field_Ok_inv in Fld2 as [v Hv].
    apply model_validator_Ok_inv in Hv as [d Hd].
    by apply DryBulbCondition_within_bounds in Hd.
  - apply required_field_Ok_inv in Fld1 as [v Hv].
    apply model_validator_Ok_inv in Hv as [d Hd].
    by apply HumidityCondition_within_bounds in Hd.
  - apply required_field_Ok_inv in Fld0 as [v Hv].
    apply model_validator_Ok_inv in Hv as [d Hd].
    by apply WindCondition_within_bounds in Hd.
  - apply required_field_Ok_inv in Fld as [v Hv].
    apply sky_condition_Ok_inv in Hv.
    destruct a as [c|t]; destruct Hv as [d Hd]; simpl.
    + by apply ASHRAEClearSky_within_bounds in Hd.
    + by apply ASHRAETau_within_bounds in Hd.
Qed.

(** ** Absent and null entries *)







(** ** Defaults of the discriminator and of [daylight_savings] *)

(** Validated from a mapping without [type], an instance carries the name
    of its class; a sky condition validated from a mapping without
    [daylight_savings] has it [false]. *)
Theorem discriminator_defaults_to_class_name :
  (forall data x, validate_DryBulbCondition data = Ok x ->
     data !! "type" = None -> DryBulbCondition_type x = "DryBulbCondition") /\
  (forall data x, validate_HumidityCondition data = Ok x ->
     data !! "type" = None -> HumidityCondition_type x = "HumidityCondition") /\
  (forall data x, validate_WindCondition data = Ok x ->
     data !! "type" = None -> WindCondition_type x = "WindCondition") /\
  (forall data x, validate_ASHRAEClearSky data = Ok x ->
     (data !! "type" = None -> ASHRAEClearSky_type x = "ASHRAEClearSky") /\
     (data !! "daylight_savings" = None ->
      ASHRAEClearSky_daylight_savings x = false)) /\
  (forall data x, validate_ASHRAETau data = Ok x ->
     (data !! "type" = None -> ASHRAETau_type x = "ASHRAETau") /\
     (data !! "daylight_savings" = None ->
      ASHRAETau_daylight_savings x = false)) /\
  (forall data x, validate_DesignDay data = Ok x ->
     data !! "type" = None -> DesignDay_type x = "DesignDay").
Proof.
  repeat apply conj.
  - intros data x H E. unfold validate_DryBulbCondition in H. split_ap H.
    simpl. eapply field_default_used; eauto.
  - intros data x H E. unfold validate_HumidityCondition in H. split_ap H.
    simpl. eapply field_default_used; eauto.
  - intros data x H E. unfold validate_WindCondition in H. split_ap H.
    simpl. eapply field_default_used; eauto.
  - intros data x H. unfold validate_ASHRAEClearSky in H. split_ap H.
    simpl. split; intros E; eapply field_default_used; eauto.
  - intros data x H. unfold validate_ASHRAETau in H. split_ap H.
    simpl. split; intros E; eapply field_default_used; eauto.
  - intros data x H E. unfold validate_DesignDay in H. split_ap H.
    simpl. eapply field_default_used; eauto.
Qed.

(** ** The union of the two sky classes *)

Lemma type_field_match regex dflt data s t :
  data !! "type" = Some (VStr s) ->
  field "type" (constr regex) dflt data = Ok t -> re_match regex s = true.
Proof.
  intros E H. apply (field_lookup_Ok _ _ _ _ _ _ E) in H.
  rewrite constr_VStr in H. by destruct (re_match regex s).
Qed.

Lemma ASHRAEClearSky_type_match data s x :
  data !! "type" = Some (VStr s) -> validate_ASHRAEClearSky data = Ok x ->
  re_match "^ASHRAEClearSky$" s = true.
Proof.
  intros E H. unfold validate_ASHRAEClearSky in H. split_ap H.
  by eapply type_field_match.
Qed.

Lemma ASHRAETau_type_match_tag data s x :
  data !! "type" = Some (VStr s) -> validate_ASHRAETau data = Ok x ->
  re_match "^ASHRAETau$" s = true.
Proof.
  intros E H. unfold validate_ASHRAETau in H. split_ap H.
  by eapply type_field_match.
Qed.

(** [Union[ASHRAEClearSky, ASHRAETau]] gives the first class that accepts:
    a mapping that [ASHRAEClearSky] accepts is an [ASHRAEClearSky], and the
    result is an [ASHRAETau] exactly when [ASHRAEClearSky] refuses the
    mapping and [ASHRAETau] accepts it.  A mapping that carries a string
    [type] is never accepted by both classes, so the order only matters for
    a mapping without one. *)
Theorem sky_condition_first_class_wins :
  (forall data c, validate_ASHRAEClearSky data = Ok c ->
     validate_sky_condition (VDict data) = Ok (inl c)) /\
  (forall data t,
     validate_sky_condition (VDict data) = Ok (inr t) <->
     is_invalid (validate_ASHRAEClearSky data) /\ validate_ASHRAETau data = Ok t)
  /\
  (forall data s c t, data !! "type" = Some (VStr s) ->
     validate_ASHRAEClearSky data = Ok c -> validate_ASHRAETau data = Ok t ->
     False).
Proof.
  repeat apply conj.
  - intros data c H. unfold validate_sky_condition, union_validator. simpl.
    by rewrite H.
  - intros data t. unfold validate_sky_condition, union_validator. simpl.
    destruct (validate_ASHRAEClearSky data) as [c|ec]; simpl.
    + split; [discriminate | by intros [[] _]].
    + destruct (validate_ASHRAETau data) as [t'|et]; split.
      * by intros [= <-].
      * by intros [_ [= <-]].
      * discriminate.
      * by intros [_ ?].
  - intros data s c t E Hc Ht.
    apply (ASHRAEClearSky_type_match _ _ _ E) in Hc.
    apply (ASHRAETau_type_match_tag _ _ _ E) in Ht.
    apply (re_match_anchored "ASHRAEClearSky") in Hc as [-> | ->]; discriminate.
Qed.

(** The class of a validated sky condition and the discriminator it carries
    agree: an [ASHRAEClearSky] carries ["ASHRAEClearSky"] and an [ASHRAETau]
    carries ["ASHRAETau"], in both cases possibly followed by a line feed
    (what [$] lets through). *)
Theorem sky_condition_class_and_type_agree v x :
  validate_sky_condition v = Ok x ->
  match x with
  | inl c => ASHRAEClearSky_type c = "ASHRAEClearSky" \/
             ASHRAEClearSky_type c = "ASHRAEClearSky" +:+ LF
  | inr t => ASHRAETau_type t = "ASHRAETau" \/
             ASHRAETau_type t = "ASHRAETau" +:+ LF
  end.
Proof.
  intros H. apply sky_condition_Ok_inv in H.
  destruct x as [c|t]; destruct H as [d H].
  - unfold validate_ASHRAEClearSky in H. split_ap H. simpl.
    by eapply (type_field_values _ "ASHRAEClearSky").
  - unfold validate_ASHRAETau in H. split_ap H. simpl.
    by eapply (type_field_values _ "ASHRAETau").
Qed.


(** ** The humidity types *)


(** ** Not-a-number and infinity *)





(** ** One error for a field *)

Lemma constr_one_error regex v : one_error_at_most (errors (constr regex v)).
Proof.
  unfold constr, str_validator, one_error_at_most.
  destruct v as [|b|f|s|d]; simpl;
    try (right; eexists; reflexivity);
    match goal with |- context [re_match ?r ?x] => destruct (re_match r x) end;
    simpl; first [ by left | right; eexists; reflexivity ].
Qed.

Lemma confloat_one_error ge le v : one_error_at_most (errors (confloat ge le v)).
Proof.
  unfold confloat, one_error_at_most.
  assert (H : forall x, one_error_at_most (errors (number_size_validator ge le x))).
  { intros x.
    destruct (number_size_validator_cases ge le x) as [[_ ->] | (_ & k & _ & ->)];
      [by left | right; by exists k]. }
  destruct v as [|b|f|s|d]; simpl; try (right; eexists; reflexivity);
    try apply H.
  destruct (float_of_str s); simpl; [apply H | right; eexists; reflexivity].
Qed.

Lemma bool_validator_one_error v : one_error_at_most (errors (bool_validator v)).
Proof.
  unfold bool_validator, one_error_at_most.
  destruct v as [|b|f|s|d]; simpl; try (right; eexists; reflexivity);
    try (by left);
    repeat match goal with
      | |- context [if ?c then _ else _] => destruct c
      end;
    simpl; first [ by left | right; eexists; reflexivity ].
Qed.

Lemma enum_validator_one_error {E} (members : list E) value_of v :
  one_error_at_most (errors (enum_validator members value_of v)).
Proof.
  unfold enum_validator, one_error_at_most.
  destruct v as [|b|f|s|d]; simpl; try (right; eexists; reflexivity).
  destruct (find _ members); simpl; [by left | right; eexists; reflexivity].
Qed.

(** A field with such an annotation reports nothing, or one error at its
    own key. *)
Lemma field_one_error {A} key (ann : validator A) dflt data :
  (forall v, one_error_at_most (errors (ann v))) ->
  map loc (errors (field key ann dflt data)) = [] \/
  map loc (errors (field key ann dflt data)) = [[key]].
Proof.
  intros Hann. unfold field. destruct (data !! key) as [v|].
  - assert (H : map loc (errors (at_loc key (ann v))) = [] \/
                map loc (errors (at_loc key (ann v))) = [[key]]).
    { rewrite errors_at_loc.
      destruct (Hann v) as [-> | [k ->]]; [by left | by right]. }
    destruct v; try exact H. by right.
  - destruct dflt; [by left | by right].
Qed.

Ltac one_error_each :=
  repeat match goal with
    | |- context [map loc (errors (field ?key ?ann ?dflt ?data))] =>
        let H := fresh in
        destruct (field_one_error key ann dflt data) as [H | H];
        [ first [ apply constr_one_error | apply confloat_one_error
                | apply bool_validator_one_error
                | apply enum_validator_one_error ]
        | rewrite H; clear H | rewrite H; clear H ]
    end;
  simpl;
  repeat first [ apply sublist_nil_l | apply sublist_skip | apply sublist_cons ].

(** The errors of a leaf model: at most one for a field, each at the key of
    its field, in the order of declaration.  So there are never more errors
    than declared fields, never two for one field, and never one at a key
    that is no field. *)
Theorem leaf_errors_one_per_field data :
  map loc (errors (validate_DryBulbCondition data))
    `sublist_of` map (fun key => [key]) DryBulbCondition_fields /\
  map loc (errors (validate_HumidityCondition data))
    `sublist_of` map (fun key => [key]) HumidityCondition_fields /\
  map loc (errors (validate_WindCondition data))
    `sublist_of` map (fun key => [key]) WindCondition_fields.
Proof.
  repeat apply conj.
  - unfold validate_DryBulbCondition, DryBulbCondition_fields.
    rewrite !errors_ap, !map_app. cbn [errors map app]. one_error_each.
  - unfold validate_HumidityCondition, HumidityCondition_fields.
    rewrite !errors_ap, !map_app. cbn [errors map app]. one_error_each.
  - unfold validate_WindCondition, WindCondition_fields.
    rewrite !errors_ap, !map_app. cbn [errors map app]. one_error_each.
Qed.


(** ** Keys that are no field of a sky class *)

Lemma validate_ASHRAEClearSky_ext data data' :
  (forall key, key ∈ ASHRAEClearSky_fields -> data !! key = data' !! key) ->
  validate_ASHRAEClearSky data = validate_ASHRAEClearSky data'.
Proof.
  intros H. unfold validate_ASHRAEClearSky.
  rewrite (field_ext "type" _ _ data data'),
          (field_ext "date" _ _ data data'),
          (field_ext "clearness" _ _ data data'),
          (field_ext "daylight_savings" _ _ data data');
    try reflexivity; apply H; repeat constructor.
Qed.

Lemma validate_ASHRAETau_ext data data' :
  (forall key, key ∈ ASHRAETau_fields -> data !! key = data' !! key) ->
  validate_ASHRAETau data = validate_ASHRAETau data'.
Proof.
  intros H. unfold validate_ASHRAETau.
  rewrite (field_ext "type" _ _ data data'),
          (field_ext "date" _ _ data data'),
          (field_ext "tau_b" _ _ data data'),
          (field_ext "tau_d" _ _ data data'),
          (field_ext "daylight_savings" _ _ data data');
    try reflexivity; apply H; repeat constructor.
Qed.

(** Each sky class reads its mapping at its own declared fields only, so
    for [ASHRAEClearSky] the entries [tau_b] and [tau_d] count for nothing
    and for [ASHRAETau] the entry [clearness] does not; a key that is a
    field of neither class does not change what the union gives. *)
Theorem sky_classes_ignore_undeclared_keys :
  (forall data data',
     (forall key, key ∈ ASHRAEClearSky_fields -> data !! key = data' !! key) ->
     validate_ASHRAEClearSky data = validate_ASHRAEClearSky data') /\
  (forall data data',
     (forall key, key ∈ ASHRAETau_fields -> data !! key = data' !! key) ->
     validate_ASHRAETau data = validate_ASHRAETau data') /\
  (forall data v_b v_d,
     validate_ASHRAEClearSky (<["tau_b" := v_b]> (<["tau_d" := v_d]> data))
     = validate_ASHRAEClearSky data) /\
  (forall data v_c,
     validate_ASHRAETau (<["clearness" := v_c]> data) = validate_ASHRAETau data)
  /\
  (forall data k v,
     k ∉ ASHRAEClearSky_fields -> k ∉ ASHRAETau_fields ->
     validate_sky_condition (VDict (<[k := v]> data))
     = validate_sky_condition (VDict data)).
Proof.
  repeat apply conj.
  - apply validate_ASHRAEClearSky_ext.
  - apply validate_ASHRAETau_ext.
  - intros data v_b v_d. apply validate_ASHRAEClearSky_ext. intros key Hkey.
    rewrite !(lookup_insert_undeclared ASHRAEClearSky_fields); try done;
      intros H; repeat (apply elem_of_cons in H as [[=] | H]);
      by apply elem_of_nil in H.
  - intros data v_c. apply validate_ASHRAETau_ext. intros key Hkey.
    rewrite (lookup_insert_undeclared ASHRAETau_fields); try done.
    intros H; repeat (apply elem_of_cons in H as [[=] | H]).
    by apply elem_of_nil in H.
  - intros data k v Hc Ht. unfold validate_sky_condition, union_validator.
    cbn [model_validator].
    rewrite (validate_ASHRAEClearSky_ext (<[k := v]> data) data),
            (validate_ASHRAETau_ext (<[k := v]> data) data); [done | |];
      intros key Hkey.
    + exact (lookup_insert_undeclared _ _ _ _ _ Ht Hkey).
    + exact (lookup_insert_undeclared _ _ _ _ _ Hc Hkey).
Qed.


(** ** Errors are gathered *)





End Schema.

(** * The theorems at concrete inputs *)

(** The stand-ins read back what they write. *)
Lemma MonthDay_round_trip :
  Date_round_trip MonthDay validate_MonthDay serialize_MonthDay.
Proof.
  intros d [m dd] H. unfold validate_MonthDay, number_entry in H.
  destruct (d !! "month") as [[]|], (d !! "day") as [[]|]; try discriminate.
  injection H as -> ->. reflexivity.
Qed.

Lemma plain_name_accepted_again : name_accepted_again plain_name.
Proof. intros v s H. by destruct v. Qed.

Lemma summer_day_validates float_of_str str_of_num :
  validate_DesignDay float_of_str str_of_num MonthDay validate_MonthDay
    plain_name summer_day_data = Ok summer_day.
Proof. reflexivity. Qed.

(** The round trip on the summer day, for any reading of [float()] and
    [str()]. *)
Lemma round_trip_witness :
  exists x, forall float_of_str str_of_num,
    validate_DesignDay float_of_str str_of_num MonthDay validate_MonthDay
      plain_name summer_day_data = Ok x /\
    validate_DesignDay float_of_str str_of_num MonthDay validate_MonthDay
      plain_name (serialize_DesignDay MonthDay serialize_MonthDay x true)
    = Ok x.
Proof.
  exists summer_day. intros fs sn.
  split; [apply summer_day_validates|].
  destruct (validate_serialize_round_trip fs sn MonthDay validate_MonthDay
              serialize_MonthDay plain_name MonthDay_round_trip
              plain_name_accepted_again) as (_ & _ & _ & _ & _ & H).
  apply (H summer_day_data). apply summer_day_validates.
Defined.

Lemma DryBulbCondition_bounds_witness :
  exists x, forall float_of_str str_of_num,
    validate_DryBulbCondition float_of_str str_of_num mild_dry_bulb = Ok x /\
    is_invalid (validate_DryBulbCondition float_of_str str_of_num hot_dry_bulb).
Proof.
  exists {| DryBulbCondition_type := "DryBulbCondition";
            dry_bulb_max := 32.5%float; dry_bulb_range := 10%float |}.
  intros fs sn. split.
  - destruct (DryBulbCondition_bounds fs sn mild_dry_bulb (VNum 32.5%float)
                32.5%float eq_refl eq_refl) as [H _].
    destruct (H "DryBulbCondition" (VNum 10%float) 10%float
                eq_refl eq_refl eq_refl) as [Hok _].
    apply Hok. reflexivity.
  - destruct (DryBulbCondition_bounds fs sn hot_dry_bulb (VNum 85%float)
                85%float eq_refl eq_refl) as [_ H].
    apply H. reflexivity.
Defined.

Lemma DryBulbCondition_bounds_on_entries_witness :
  exists x, forall float_of_str str_of_num,
    validate_DryBulbCondition_entries float_of_str str_of_num mild_entries
    = Returns (Ok x) /\
    (exists errs,
       validate_DryBulbCondition_entries float_of_str str_of_num hot_entries
       = Returns (Invalid errs)) /\
    validate_DryBulbCondition_entries float_of_str str_of_num wide_dry_bulb
    = Escapes OverflowError.
Proof.
  exists {| DryBulbCondition_type := "DryBulbCondition";
            dry_bulb_max := 32.5%float; dry_bulb_range := 10%float |}.
  intros fs sn. repeat apply conj.
  - destruct (DryBulbCondition_bounds_on_entries fs sn mild_entries
                (EValue (VNum 32.5%float)) 32.5%float eq_refl eq_refl)
      as [H _].
    destruct (H "DryBulbCondition" (EInt 10) 10%float eq_refl eq_refl eq_refl)
      as [Hok _].
    apply Hok. reflexivity.
  - destruct (DryBulbCondition_bounds_on_entries fs sn hot_entries
                (EInt 85) 85%float eq_refl eq_refl) as (_ & H & _).
    destruct H as (errs & e & Herrs & _); [reflexivity | | by exists errs].
    intros n [= <-]. discriminate.
  - destruct (DryBulbCondition_bounds_on_entries fs sn wide_dry_bulb
                (EInt 0) 0%float eq_refl eq_refl) as (_ & _ & H).
    apply (H (10 ^ 400)%Z); [reflexivity | by vm_compute].
Defined.

(** C3 as stated does not hold: in [{"dry_bulb_max": 0, "dry_bulb_range":
    10**400}] the maximum lies in [-90, 70] and the range is not below 0,
    yet the call gives no instance: [float()] raises [OverflowError] on the
    range, and the exception escapes. *)
Lemma integer_beyond_the_doubles_escapes :
  (-90 <= 0 <= 70)%Z /\ (0 <= 10 ^ 400)%Z /\
  float_of_int (10 ^ 400) = None /\
  forall float_of_str str_of_num,
    validate_DryBulbCondition_entries float_of_str str_of_num wide_dry_bulb
    = Escapes OverflowError.
Proof.
  split; [lia|]. split; [by apply Z.pow_nonneg|].
  split; [by vm_compute|]. intros fs sn. by vm_compute.
Qed.





Lemma defaults_of_absent_fields_witness :
  exists h w, forall float_of_str str_of_num,
    validate_HumidityCondition float_of_str str_of_num humid = Ok h /\
    barometric_pressure h = 101325%float /\
    validate_WindCondition float_of_str str_of_num breeze = Ok w /\
    wind_direction w = 0%float.
Proof.
  exists {| HumidityCondition_type := "HumidityCondition";
            humidity_type := wetbulb; humidity_value := 23%float;
            barometric_pressure := 101325%float; rain := false;
            snow_on_ground := false |},
         {| WindCondition_type := "WindCondition"; wind_speed := 5%float;
            wind_direction := 0%float |}.
  intros fs sn.
  destruct (defaults_of_absent_fields fs sn) as (Hh & Hw & Hok).
  assert (H : validate_HumidityCondition fs sn humid = Ok _)
    by (apply Hok; reflexivity).
  split; [exact H|]. split; [apply (Hh humid _ H); reflexivity|].
  split; [reflexivity|].
  apply (Hw breeze); reflexivity.
Defined.

Lemma partial_serialization_witness :
  exists w, forall float_of_str str_of_num,
    validate_WindCondition float_of_str str_of_num breeze = Ok w /\
    serialize_WindCondition w false !! "wind_direction" = None /\
    serialize_WindCondition w false !! "wind_speed" = Some (VNum 5%float).
Proof.
  exists {| WindCondition_type := "WindCondition"; wind_speed := 5%float;
            wind_direction := 0%float |}.
  intros fs sn.
  destruct (partial_serialization_omits_defaults fs sn) as (Hall & Habsent & _).
  split; [reflexivity|]. split.
  - apply (Habsent breeze); reflexivity.
  - apply Hall.
Defined.

Lemma untagged_sky_condition_witness :
  exists x, forall float_of_str str_of_num,
    validate_sky_condition float_of_str str_of_num MonthDay validate_MonthDay
      (VDict (<["tau_b" := VNum 0.5%float]>
                (<["tau_d" := VNum 1%float]> untagged_sky)))
    = Ok (inl x).
Proof.
  eexists. intros fs sn.
  apply (untagged_sky_condition_is_clear_sky fs sn MonthDay validate_MonthDay
           serialize_MonthDay untagged_sky
           {| month := 7%float; day := 21%float |} 1%float false
           (VNum 0.5%float) (VNum 1%float));
    reflexivity.
Defined.

Lemma undeclared_keys_witness :
  exists x, forall float_of_str str_of_num,
    validate_DryBulbCondition float_of_str str_of_num
      (<["comment" := VStr "roof sensor"]> mild_dry_bulb) = Ok x /\
    serialize_DryBulbCondition x true !! "comment" = None.
Proof.
  eexists. intros fs sn.
  destruct (undeclared_keys_are_ignored fs sn) as [_ Hkey].
  destruct (Hkey "comment" (VStr "roof sensor")) as [Hdry _].
  destruct Hdry as [Hval Hser].
  { intros H. repeat (apply elem_of_cons in H as [[=] | H]).
    by apply elem_of_nil in H. }
  split; [rewrite Hval; reflexivity | apply Hser].
Defined.

(** * The further properties at concrete inputs *)

Lemma WindCondition_bounds_witness :
  exists w, forall float_of_str str_of_num,
    validate_WindCondition float_of_str str_of_num gusty = Ok w.
Proof.
  exists {| WindCondition_type := "WindCondition"; wind_speed := 5%float;
            wind_direction := 270%float |}.
  intros fs sn.
  destruct (WindCondition_bounds fs sn gusty "WindCondition" (VNum 5%float)
              5%float eq_refl eq_refl eq_refl) as [_ H].
  destruct (H (VNum 270%float) 270%float eq_refl eq_refl) as [Hok _].
  apply Hok. reflexivity.
Defined.

Lemma HumidityCondition_pressure_bounds_witness :
  exists h, forall float_of_str str_of_num,
    validate_HumidityCondition float_of_str str_of_num humid_at_altitude = Ok h.
Proof.
  exists {| HumidityCondition_type := "HumidityCondition";
            humidity_type := dewpoint; humidity_value := (-5)%float;
            barometric_pressure := 95000%float; rain := false;
            snow_on_ground := false |}.
  intros fs sn.
  destruct (HumidityCondition_pressure_bounds fs sn humid_at_altitude
              "HumidityCondition" dewpoint (VNum (-5)%float) (-5)%float
              false false (VNum 95000%float) 95000%float
              eq_refl eq_refl eq_refl eq_refl eq_refl eq_refl eq_refl eq_refl)
    as [Hok _].
  apply Hok. reflexivity.
Defined.

Lemma sky_condition_bounds_witness :
  exists c t, forall float_of_str str_of_num,
    validate_ASHRAEClearSky float_of_str str_of_num MonthDay validate_MonthDay
      untagged_sky = Ok c /\
    validate_ASHRAETau float_of_str str_of_num MonthDay validate_MonthDay
      (tau_payload "ASHRAETau") = Ok t.
Proof.
  exists {| ASHRAEClearSky_type := "ASHRAEClearSky";
            ASHRAEClearSky_date := {| month := 7%float; day := 21%float |};
            clearness := 1%float; ASHRAEClearSky_daylight_savings := false |},
         {| ASHRAETau_type := "ASHRAETau";
            ASHRAETau_date := {| month := 7%float; day := 21%float |};
            tau_b := 0.5%float; tau_d := 1%float;
            ASHRAETau_daylight_savings := false |}.
  intros fs sn.
  destruct (sky_condition_bounds fs sn MonthDay validate_MonthDay) as [Hc Ht].
  split.
  - destruct (Hc untagged_sky "ASHRAEClearSky"
                {| month := 7%float; day := 21%float |} false (VNum 1%float)
                1%float eq_refl eq_refl eq_refl eq_refl eq_refl) as [Hok _].
    apply Hok. reflexivity.
  - destruct (Ht (tau_payload "ASHRAETau") "ASHRAETau"
                {| month := 7%float; day := 21%float |} false
                (VNum 0.5%float) 0.5%float (VNum 1%float) 1%float
                eq_refl eq_refl eq_refl eq_refl eq_refl eq_refl eq_refl)
      as [Hok _].
    apply Hok. reflexivity.
Defined.

Lemma validated_instances_within_bounds_witness :
  exists x, forall float_of_str str_of_num,
    validate_DryBulbCondition float_of_str str_of_num mild_dry_bulb = Ok x /\
    DryBulbCondition_within x = true.
Proof.
  exists {| DryBulbCondition_type := "DryBulbCondition";
            dry_bulb_max := 32.5%float; dry_bulb_range := 10%float |}.
  intros fs sn. split; [reflexivity|].
  destruct (validated_instances_within_bounds fs sn MonthDay validate_MonthDay)
    as [H _].
  apply (H mild_dry_bulb). reflexivity.
Defined.

Lemma DesignDay_holds_validated_conditions_witness :
  exists x, forall float_of_str str_of_num,
    validate_DesignDay float_of_str str_of_num MonthDay validate_MonthDay
      plain_name summer_day_data = Ok x /\
    validate_WindCondition float_of_str str_of_num breeze
    = Ok (wind_condition x) /\
    WindCondition_within (wind_condition x) = true.
Proof.
  exists summer_day. intros fs sn.
  destruct (DesignDay_holds_validated_conditions fs sn MonthDay
              validate_MonthDay plain_name summer_day_data summer_day
              (summer_day_validates fs sn))
    as (_ & _ & Hwind & _ & _ & _ & _ & Hwithin & _).
  split; [apply summer_day_validates|].
  split; [apply Hwind; reflexivity | exact Hwithin].
Defined.



Lemma discriminator_defaults_witness :
  exists x, forall float_of_str str_of_num,
    validate_DryBulbCondition float_of_str str_of_num mild_dry_bulb = Ok x /\
    DryBulbCondition_type x = "DryBulbCondition".
Proof.
  exists {| DryBulbCondition_type := "DryBulbCondition";
            dry_bulb_max := 32.5%float; dry_bulb_range := 10%float |}.
  intros fs sn. split; [reflexivity|].
  destruct (discriminator_defaults_to_class_name fs sn MonthDay
              validate_MonthDay plain_name) as [H _].
  apply (H mild_dry_bulb); reflexivity.
Defined.

Lemma sky_condition_first_class_wins_witness :
  exists c, forall float_of_str str_of_num,
    validate_sky_condition float_of_str str_of_num MonthDay validate_MonthDay
      (VDict untagged_sky) = Ok (inl c).
Proof.
  exists {| ASHRAEClearSky_type := "ASHRAEClearSky";
            ASHRAEClearSky_date := {| month := 7%float; day := 21%float |};
            clearness := 1%float; ASHRAEClearSky_daylight_savings := false |}.
  intros fs sn.
  destruct (sky_condition_first_class_wins fs sn MonthDay validate_MonthDay)
    as [H _].
  apply H. reflexivity.
Defined.

Lemma sky_condition_class_and_type_witness :
  exists t, forall float_of_str str_of_num,
    validate_sky_condition float_of_str str_of_num MonthDay validate_MonthDay
      (VDict (tau_payload "ASHRAETau")) = Ok (inr t) /\
    (ASHRAETau_type t = "ASHRAETau" \/ ASHRAETau_type t = "ASHRAETau" +:+ LF).
Proof.
  exists {| ASHRAETau_type := "ASHRAETau";
            ASHRAETau_date := {| month := 7%float; day := 21%float |};
            tau_b := 0.5%float; tau_d := 1%float;
            ASHRAETau_daylight_savings := false |}.
  intros fs sn. split; [reflexivity|].
  exact (sky_condition_class_and_type_agree fs sn MonthDay validate_MonthDay
           (VDict (tau_payload "ASHRAETau")) (inr _) eq_refl).
Defined.



Lemma sky_classes_ignore_undeclared_keys_witness :
  exists c, forall float_of_str str_of_num,
    validate_sky_condition float_of_str str_of_num MonthDay validate_MonthDay
      (VDict (<["comment" := VStr "clear"]> untagged_sky)) = Ok (inl c).
Proof.
  exists {| ASHRAEClearSky_type := "ASHRAEClearSky";
            ASHRAEClearSky_date := {| month := 7%float; day := 21%float |};
            clearness := 1%float; ASHRAEClearSky_daylight_savings := false |}.
  intros fs sn.
  destruct (sky_classes_ignore_undeclared_keys fs sn MonthDay validate_MonthDay)
    as (_ & _ & _ & _ & H).
  rewrite H; [reflexivity | |];
    intros Hin; repeat (apply elem_of_cons in Hin as [[=] | Hin]);
    by apply elem_of_nil in Hin.
Defined.
